(** * dls_barcode: the slot record, the capture and scan workers, the beep

    A shallow embedding of
      - [dls_barcode/plate/slot.py]            (module [slot]),
      - [dls_barcode/continuous.py]            (module [continuous]),
      - [dls_barcode/camera/camera_scanner.py] (module [camera_scanner]),
    with the properties of the continuous multi-frame scan stated over it.

    Conventions.  A Python object with mutable attributes is a record and a
    method is a function from the record to a result and the record after the
    call.  Python's [None] is [None] of an option type.  Python integers are
    [Z] and Python floats are IEEE doubles ([spec_float] at precision 53).
    Wall-clock readings ([time.time()]) are taken over the rationals [Q]. *)

From Stdlib Require Import ZArith QArith Qround List String Bool Lia Lqa.
From Stdlib Require Import SpecFloat.
Import ListNotations.

Set Implicit Arguments.

(* ================================================================== *)
(** * Interfaces of the classes that [slot.py] and the workers use     *)
(* ================================================================== *)

(** Modelled from the spec: the barcode class whose objects a slot stores is
    not under src/; [slot.py] calls [is_unreadable()], [is_valid()] and
    [data()] on it.  The spec (section 3) has a decoded datum or a sentinel for
    every detected symbol, so [data()] is a string.  An object of the class is
    truthy, as every Python object is unless its class overrides truth
    testing. *)
Class BarcodeApi (Barcode : Type) : Type := {
  is_unreadable : Barcode -> bool;
  is_valid      : Barcode -> bool;
  data          : Barcode -> string
}.

(** A concrete barcode, used to run the definitions on examples. *)
Record SymbolRead : Type := mkSymbolRead {
  sr_text       : string;
  sr_valid      : bool;
  sr_unreadable : bool
}.

#[export] Instance SymbolRead_api : BarcodeApi SymbolRead := {
  is_unreadable := sr_unreadable;
  is_valid      := sr_valid;
  data          := sr_text
}.

(** Pixel coordinates: a point [(x, y)] and a slot outline [((x, y), radius)]. *)
Definition Point : Type := (Z * Z)%type.
Definition Circle : Type := (Point * Z)%type.

(* ================================================================== *)
(** * [dls_barcode/plate/slot.py]                                      *)
(* ================================================================== *)

Module slot.

Definition EMPTY_SLOT_SYMBOL : string := "----EMPTY----".
Definition NOT_FOUND_SLOT_SYMBOL : string := "-CANT-FIND-".

(** The class constants [Slot.NO_RESULT = 0], [Slot.EMPTY = 1],
    [Slot.UNREADABLE = 2], [Slot.VALID = 3]. *)
Inductive State : Type := NO_RESULT | EMPTY | UNREADABLE | VALID.

Definition State_code (st : State) : Z :=
  match st with NO_RESULT => 0 | EMPTY => 1 | UNREADABLE => 2 | VALID => 3 end.

Definition State_eqb (a b : State) : bool := (State_code a =? State_code b)%Z.

Section WithBarcode.
Context {Barcode : Type} {api : BarcodeApi Barcode}.

(** The attributes that [Slot.__init__] creates. *)
Record Slot : Type := mkSlot {
  _number                 : Z;
  _bounds                 : option Circle;
  _barcode_position       : option Point;
  _barcode                : option Barcode;
  _empty                  : bool;
  _total_frames           : Z;
  _barcode_set_this_frame : bool
}.

Definition __init__ (number : Z) : Slot :=
  {| _number := number;
     _bounds := None;
     _barcode_position := None;
     _barcode := None;
     _empty := false;
     _total_frames := 0%Z;
     _barcode_set_this_frame := false |}.

(** Attribute assignment, one function per attribute. *)
Definition with_bounds (v : option Circle) (s : Slot) : Slot :=
  mkSlot (_number s) v (_barcode_position s) (_barcode s) (_empty s)
         (_total_frames s) (_barcode_set_this_frame s).
Definition with_barcode_position (v : option Point) (s : Slot) : Slot :=
  mkSlot (_number s) (_bounds s) v (_barcode s) (_empty s)
         (_total_frames s) (_barcode_set_this_frame s).
Definition with_barcode (v : option Barcode) (s : Slot) : Slot :=
  mkSlot (_number s) (_bounds s) (_barcode_position s) v (_empty s)
         (_total_frames s) (_barcode_set_this_frame s).
Definition with_empty (v : bool) (s : Slot) : Slot :=
  mkSlot (_number s) (_bounds s) (_barcode_position s) (_barcode s) v
         (_total_frames s) (_barcode_set_this_frame s).
Definition with_total_frames (v : Z) (s : Slot) : Slot :=
  mkSlot (_number s) (_bounds s) (_barcode_position s) (_barcode s) (_empty s)
         v (_barcode_set_this_frame s).
Definition with_barcode_set_this_frame (v : bool) (s : Slot) : Slot :=
  mkSlot (_number s) (_bounds s) (_barcode_position s) (_barcode s) (_empty s)
         (_total_frames s) v.

(** A method of [Slot]: it reads and may assign the attributes of [self]. *)
Definition Method (A : Type) : Type := Slot -> A * Slot.

Definition ret {A} (a : A) : Method A := fun self => (a, self).
Definition bind {A B} (m : Method A) (k : A -> Method B) : Method B :=
  fun self => let (a, self') := m self in k a self'.
Definition attr {A} (f : Slot -> A) : Method A := fun self => (f self, self).
Definition assign (f : Slot -> Slot) : Method unit := fun self => (tt, f self).

Notation "x <- m ;; k" := (bind m (fun x => k))
  (at level 61, m at next level, right associativity).
Notation "m ;;; k" := (bind m (fun _ => k))
  (at level 61, right associativity).

(** The value a call returns, and the object after the call. *)
Definition returns {A} (m : Method A) (self : Slot) : A := fst (m self).
Definition after {A} (m : Method A) (self : Slot) : Slot := snd (m self).

(** [x and x.f()] for an attribute [x] that holds [None] or an object. *)
Definition and_call (x : option Barcode) (f : Barcode -> bool) : bool :=
  match x with
  | None => false
  | Some b => f b
  end.

Definition is_not_None {A} (x : option A) : bool :=
  match x with None => false | Some _ => true end.

Definition new_frame : Method unit :=
  n <- attr _total_frames ;;
  assign (with_total_frames (n + 1)%Z) ;;;
  assign (with_barcode_set_this_frame false).

Definition number : Method Z := attr _number.
Definition bounds : Method (option Circle) := attr _bounds.
Definition barcode_position : Method (option Point) := attr _barcode_position.
Definition barcode_this_frame : Method bool := attr _barcode_set_this_frame.

Definition set_bounds (b : option Circle) : Method unit :=
  assign (with_bounds b).

Definition set_barcode_position (coord : option Point) : Method unit :=
  assign (with_barcode_position coord).

Definition set_barcode (barcode : option Barcode) : Method unit :=
  assign (with_barcode barcode) ;;;
  if is_not_None barcode
  then assign (with_empty false) ;;;
       assign (with_barcode_set_this_frame true)
  else ret tt.

Definition set_empty : Method unit :=
  assign (with_barcode None) ;;;
  assign (with_empty true).

Definition set_no_result : Method unit :=
  assign (with_barcode None) ;;;
  assign (with_empty false).

Definition state : Method State :=
  e <- attr _empty ;;
  if e then ret EMPTY
  else
    b <- attr _barcode ;;
    if and_call b is_unreadable then ret UNREADABLE
    else if and_call b is_valid then ret VALID
    else ret NO_RESULT.

Definition contains_barcode : Method bool :=
  st <- state ;;
  ret (State_eqb st UNREADABLE || State_eqb st VALID).

Definition barcode_data : Method string :=
  e <- attr _empty ;;
  if e then ret EMPTY_SLOT_SYMBOL
  else
    b <- attr _barcode ;;
    match b with
    | Some bc => ret (data bc)
    | None => ret NOT_FOUND_SLOT_SYMBOL
    end.

End WithBarcode.

Arguments Slot Barcode : clear implicits.

End slot.

(* ================================================================== *)
(** * Python arithmetic used by the workers                            *)
(* ================================================================== *)

Module python.

(** The exceptions that the modelled code raises. *)
Inductive Exception : Type :=
| ZeroDivisionError
| OverflowError
| ValueError.

(** What an expression gives: a value, or the exception raised instead. *)
Inductive Result (A : Type) : Type :=
| Returned (a : A)
| Raised (e : Exception).
Arguments Raised {A} e.

(** [a / b] on two ints in a file that does not import [division] from
    [__future__]: the source tree is Python 2 (print statements, implicit
    relative imports), where this is the floor division. *)
Definition floor_div (a b : Z) : Result Z :=
  if (b =? 0)%Z then Raised ZeroDivisionError else Returned (a / b)%Z.

(** A Python float is an IEEE double: 53 bits of mantissa, infinities at
    exponent 1024, rounding to nearest, ties to even. *)
Definition prec : Z := 53.
Definition emax : Z := 1024.
Definition float : Type := spec_float.

(** [float(z)] for an int that converts without overflow, as the int
    constants of the code do. *)
Definition float_of_int (z : Z) : float :=
  binary_normalize prec emax z 0 false.

(** The int [z] as an exact, not yet rounded, binary number. *)
Definition exact_int (z : Z) : float :=
  match z with
  | Z0 => S754_zero false
  | Zpos m => S754_finite false m 0
  | Zneg m => S754_finite true m 0
  end.

(** [a / b] on two ints with true division ([from __future__ import
    division]): the double nearest to the quotient; [ZeroDivisionError] when
    [b] is zero, [OverflowError] when the quotient is too large for a
    double. *)
Definition true_div (a b : Z) : Result float :=
  if (b =? 0)%Z then Raised ZeroDivisionError
  else
    match SFdiv prec emax (exact_int a) (exact_int b) with
    | S754_infinity _ => Raised OverflowError
    | quotient => Returned quotient
    end.

Definition float_mul (x y : float) : float := SFmul prec emax x y.
Definition float_add (x y : float) : float := SFadd prec emax x y.

(** [int(x)] on a float: truncation towards zero; [OverflowError] on an
    infinity, [ValueError] on a NaN. *)
Definition int (x : float) : Result Z :=
  match x with
  | S754_zero _ => Returned 0%Z
  | S754_finite negative m e =>
      let magnitude :=
        match e with
        | Zneg k => Z.shiftr (Zpos m) (Zpos k)
        | _ => Z.shiftl (Zpos m) e
        end in
      Returned (if negative then (- magnitude)%Z else magnitude)
  | S754_infinity _ => Raised OverflowError
  | S754_nan => Raised ValueError
  end.

End python.

(** [winsound.Beep(frequency, duration)] raises [ValueError] unless the
    frequency is from 37 to 32767 Hz; within that range the beep sounds. *)
Module winsound.

Definition Beep_sounds (frequency : Z) : bool :=
  ((37 <=? frequency) && (frequency <=? 32767))%Z.

End winsound.

(* ================================================================== *)
(** * What the environment supplies to the two worker loops            *)
(* ================================================================== *)

(** One pass of a capture loop reads the camera, the size of the task queue,
    the clock and the keyboard; [camera_scanner.py] also reads the kill queue.
    The clock is read in the enqueue test ([now_test]) and again after the
    put ([now_after]); [now_put] is the instant of the put itself. *)
Record Tick (Image : Type) : Type := mkTick {
  kill_queue_empty : bool;
  frame            : option Image;
  qsize            : Z;
  now_test         : Q;
  now_put          : Q;
  now_after        : Q;
  exit_key_pressed : bool
}.

(** A put on the task queue: a copy of a frame, or the [None] sentinel. *)
Inductive TaskPut (Image : Type) : Type :=
| PutFrame (at_time : Q) (img : Image)
| PutSentinel.
Arguments PutSentinel {Image}.

(** The object that travels on the task queue. *)
Definition payload {Image} (p : TaskPut Image) : option Image :=
  match p with
  | PutFrame _ img => Some img
  | PutSentinel => None
  end.

(** The instants at which frames were put. *)
Fixpoint frame_times {Image} (log : list (TaskPut Image)) : list Q :=
  match log with
  | [] => []
  | PutFrame t _ :: rest => t :: frame_times rest
  | PutSentinel :: rest => frame_times rest
  end.

(** How a capture worker stands after the passes it was given: it left its
    loop and cleaned up, it died on an exception, or it is still looping. *)
Inductive Capture (Image : Type) : Type :=
| Stopped (log : list (TaskPut Image))
| Raised  (log : list (TaskPut Image))
| Looping (log : list (TaskPut Image)) (last_time : Q).

Definition puts {Image} (c : Capture Image) : list (TaskPut Image) :=
  match c with
  | Stopped log => log
  | Raised log => log
  | Looping log _ => log
  end.

Definition earlier {Image} (pre : list (TaskPut Image)) (c : Capture Image)
  : Capture Image :=
  match c with
  | Stopped log => Stopped (pre ++ log)
  | Raised log => Raised (pre ++ log)
  | Looping log t => Looping (pre ++ log) t
  end.

(** One pass of the body of a capture loop. *)
Inductive Pass (Image : Type) : Type :=
| Next   (log : list (TaskPut Image)) (last_time : Q)
| Break  (log : list (TaskPut Image))
| Except (log : list (TaskPut Image)).

Definition pass_puts {Image} (p : Pass Image) : list (TaskPut Image) :=
  match p with
  | Next log _ => log
  | Break log => log
  | Except log => log
  end.

Definition is_frame_put {Image} (p : TaskPut Image) : bool :=
  match p with PutFrame _ _ => true | PutSentinel => false end.

(** The clock does not run backwards within a pass. *)
Definition clock_ok {Image} (tk : Tick Image) : Prop :=
  (now_test tk <= now_put tk)%Q /\ (now_put tk <= now_after tk)%Q.

(** Number of instants of [ts] in the window [a <= t < b]. *)
Definition in_window (a b t : Q) : bool :=
  Qle_bool a t && negb (Qle_bool b t).

Definition count_in (a b : Q) (ts : list Q) : nat :=
  List.length (List.filter (in_window a b) ts).

(** Successive instants are at least [gap] apart, the first one at least
    [gap] after [lo]. *)
Fixpoint spaced (gap lo : Q) (ts : list Q) : Prop :=
  match ts with
  | [] => True
  | t :: rest => (lo + gap <= t)%Q /\ spaced gap t rest
  end.

(** The plate class is not under src/.  The scan workers read these
    attributes and call these methods of a plate; they are taken as
    parameters.  A plate object is truthy (Python's default). *)
Class PlateApi (Plate : Type) : Type := {
  scan_ok             : Plate -> bool;
  has_slots_in_common : Plate -> Plate -> bool;
  is_full_valid       : Plate -> bool;
  num_slots           : Plate -> Z;
  num_valid_barcodes  : Plate -> Z
}.

(* ================================================================== *)
(** * [dls_barcode/continuous.py]                                      *)
(* ================================================================== *)

Module continuous.

Definition Q_LIMIT : Z := 1.
Definition SCANNED_TAG : string := "Already Scanned".
Definition EXIT_KEY : string := "q".
Definition MAX_SAMPLE_RATE : Q := 10.
Definition INTERVAL : Q := 1 / MAX_SAMPLE_RATE.

(** [int(10000 * ((num_slots - num_valid_barcodes) / num_slots)) + 37] on
    the two int counts of a plate.  This file does not import [division] from
    [__future__], so [/] is the floor division and the whole is int
    arithmetic, on which [int(...)] changes nothing. *)
Definition beep_frequency (num_slots num_valid_barcodes : Z)
  : python.Result Z :=
  match python.floor_div (num_slots - num_valid_barcodes) num_slots with
  | python.Raised e => python.Raised e
  | python.Returned fraction => python.Returned (10000 * fraction + 37)%Z
  end.

Section Workers.
Context {Image Plate : Type} {plate_api : PlateApi Plate}.

(** [CvImage(None, frame).to_grayscale().img], and the two calls that prepare
    the image of a full plate: [Overlay(plate).draw_on_image(cv_image.img)] and
    [plate.crop_image(cv_image)].  The image classes are not under src/. *)
Variable to_grayscale : Image -> Image.
Variable draw_on_image : Plate -> Image -> Image.
Variable crop_image : Plate -> Image -> Image.

(** Modelled from the spec: [Scanner.ScanImage] and
    [Scanner.ScanImageContinuous] are not under src/.  They are parameters
    here: a scan returns a plate (and, for the continuous scan, whether the
    frame held barcodes) and leaves the plate it was given as it was
    (section 4.2, item 6). *)
Variable ScanImage : Image -> Plate.
Variable ScanImageContinuous : Image -> Plate -> Plate * bool.

(** *** [capture_worker] *)

(** A pass of [while(True)].  With no frame from the camera, [frame.copy()]
    fails, and so does the drawing and resizing of the frame when nothing is
    to be put: the pass ends in an exception with nothing put.  The overlay
    drawn on the displayed frame does not reach any queue and is left out. *)
Definition capture_pass (last_time : Q) (tk : Tick Image) : Pass Image :=
  match frame tk with
  | None => Except []
  | Some img =>
      let '(log, last_time') :=
        if (qsize tk <? Q_LIMIT)%Z
           && Qle_bool INTERVAL (now_test tk - last_time)
        then ([PutFrame (now_put tk) img], now_after tk)
        else ([], last_time) in
      if exit_key_pressed tk
      then Break (log ++ [PutSentinel])
      else Next log last_time'
  end.

Fixpoint capture_loop (ticks : list (Tick Image)) (last_time : Q)
  : Capture Image :=
  match ticks with
  | [] => Looping [] last_time
  | tk :: rest =>
      match capture_pass last_time tk with
      | Next log t => earlier log (capture_loop rest t)
      | Break log => Stopped log
      | Except log => Raised log
      end
  end.

(** [last_time = time.time()] before the loop is [start]. *)
Definition capture_worker (start : Q) (ticks : list (Tick Image))
  : Capture Image :=
  capture_loop ticks start.

(** *** [scanner_worker] *)

(** [Overlay(plate, text=None, lifetime=1)]; the creation time, which only
    says for how long the capture worker draws the overlay, is left out. *)
Record Overlay : Type := mkOverlay {
  _plate    : option Plate;
  _text     : option string;
  _lifetime : Z
}.

(** What the scan worker sends out. *)
Inductive Event : Type :=
| overlay_put (o : Overlay)
| result_put  (plate : Plate) (cv_image : Image)
| Beep        (frequency duration : Z).

Definition is_result_put (e : Event) : bool :=
  match e with result_put _ _ => true | _ => false end.

(** The variables of [scanner_worker] that live across frames. *)
Record Vars : Type := mkVars {
  last_plate              : option Plate;
  last_full_plate         : option Plate;
  frame_contains_barcodes : bool
}.

Definition start : Vars :=
  {| last_plate := None; last_full_plate := None;
     frame_contains_barcodes := false |}.

Inductive Step : Type :=
| Done   (vars : Vars) (out : list Event)
| Failed (out : list Event).

(** [last_full_plate and last_full_plate.has_slots_in_common(plate)] *)
Definition matches_last_full (last_full : option Plate) (plate : Plate) : bool :=
  match last_full with
  | None => false
  | Some full => has_slots_in_common full plate
  end.

(** The scan of a frame: [plate] and [frame_contains_barcodes] after the
    [if last_plate is None: ... else: ...] of the loop body. *)
Definition scan (v : Vars) (gray_image : Image) : Plate * bool :=
  match last_plate v with
  | None => (ScanImage gray_image, frame_contains_barcodes v)
  | Some previous => ScanImageContinuous gray_image previous
  end.

(** The body of [while True] for a frame that is not the sentinel. *)
Definition process_frame (v : Vars) (frame : Image) : Step :=
  let gray_image := to_grayscale frame in
  let '(plate, contains) := scan v gray_image in
  if scan_ok plate then
    if matches_last_full (last_full_plate v) plate then
      Done (mkVars (Some plate) (last_full_plate v) contains)
           (if contains
            then [overlay_put (mkOverlay None (Some SCANNED_TAG) 1)]
            else [])
    else
      let '(full, stored) :=
        if is_full_valid plate
        then (Some plate,
              [result_put plate (crop_image plate (draw_on_image plate frame))])
        else (last_full_plate v, []) in
      if contains then
        match beep_frequency (num_slots plate) (num_valid_barcodes plate) with
        | python.Raised _ => Failed stored
        | python.Returned frequency =>
            if winsound.Beep_sounds frequency then
              Done (mkVars (Some plate) full contains)
                   (stored ++ [Beep frequency 200;
                               overlay_put (mkOverlay (Some plate) None 1)])
            else Failed stored
        end
      else Done (mkVars (Some plate) full contains) stored
  else Done (mkVars (last_plate v) (last_full_plate v) contains) [].

(** How the scan worker stands after the items the task queue delivered:
    it left its loop on the sentinel, it waits in [task_queue.get(True)] on an
    empty queue, or it died on an exception. *)
Inductive Run : Type :=
| Exited  (vars : Vars) (out : list Event) (unread : list (option Image))
| Waiting (vars : Vars) (out : list Event)
| Crashed (out : list Event).

Definition emitted (pre : list Event) (r : Run) : Run :=
  match r with
  | Exited v out unread => Exited v (pre ++ out) unread
  | Waiting v out => Waiting v (pre ++ out)
  | Crashed out => Crashed (pre ++ out)
  end.

Fixpoint scanner_loop (queue : list (option Image)) (v : Vars) : Run :=
  match queue with
  | [] => Waiting v []
  | None :: unread => Exited v [] unread
  | Some frame :: rest =>
      match process_frame v frame with
      | Done v' out => emitted out (scanner_loop rest v')
      | Failed out => Crashed out
      end
  end.

Definition scanner_worker (queue : list (option Image)) : Run :=
  scanner_loop queue start.

End Workers.

End continuous.

(* ================================================================== *)
(** * [dls_barcode/camera/camera_scanner.py]                           *)
(* ================================================================== *)

Module camera_scanner.

Definition Q_LIMIT : Z := 1.
Definition SCANNED_TAG : string := "Scan Complete".
Definition NO_PUCK_TIME : Q := 2.
Definition EXIT_KEY : string := "q".
Definition MAX_SAMPLE_RATE : Q := 10.
Definition INTERVAL : Q := 1 / MAX_SAMPLE_RATE.

(** The values of the configuration that the scan worker reads
    ([options.plate_type.value()] and so on). *)
Record Options : Type := mkOptions {
  slot_images          : bool;
  slot_image_directory : string;
  plate_type           : string;
  barcode_size         : Z;
  console_frame        : bool;
  scan_beep            : bool
}.

(** Modelled from the spec: the class of the object that
    [scanner.scan_next_frame] returns is not under src/.  The spec
    (section 3, Scan Result) gives it an outcome tag, the plate snapshot
    when alignment succeeded and a message when it failed.  [success()] is
    any outcome but [AlignmentFailed] and [already_scanned()] is
    [DuplicateOfLastReported].  [any_valid_barcodes()] and
    [any_new_barcodes()] are flags of their own: the spec (section 4.2)
    reads them off the slots of the plate, and the worker tests
    [any_new_barcodes()] whatever [already_scanned()] says. *)
Inductive Outcome : Type :=
| AlignmentFailed
| DuplicateOfLastReported
| PartialProgress
| NewBarcodesFound.

Record ScanResult (Plate : Type) : Type := mkScanResult {
  outcome     : Outcome;
  snapshot    : option Plate;
  message     : string;
  valid_found : bool;
  new_found   : bool
}.

Section ScanResultMethods.
Context {Plate : Type}.

Definition success (r : ScanResult Plate) : bool :=
  match outcome r with AlignmentFailed => false | _ => true end.
Definition already_scanned (r : ScanResult Plate) : bool :=
  match outcome r with DuplicateOfLastReported => true | _ => false end.
Definition any_new_barcodes (r : ScanResult Plate) : bool := new_found r.
Definition any_valid_barcodes (r : ScanResult Plate) : bool := valid_found r.
Definition plate (r : ScanResult Plate) : option Plate := snapshot r.
Definition error (r : ScanResult Plate) : string := message r.

End ScanResultMethods.

(** [int(10000 * empty_fraction + 37)] with
    [empty_fraction = (num_slots - num_valid_barcodes) / num_slots] on the two
    int counts of a plate.  This file imports [division] from [__future__]:
    the fraction, the product and the sum are doubles. *)
Definition beep_frequency (num_slots num_valid_barcodes : Z)
  : python.Result Z :=
  match python.true_div (num_slots - num_valid_barcodes) num_slots with
  | python.Raised e => python.Raised e
  | python.Returned empty_fraction =>
      python.int
        (python.float_add
           (python.float_mul (python.float_of_int 10000) empty_fraction)
           (python.float_of_int 37))
  end.

(** *** [CameraScanner] *)

(** The two queues that [kill] puts on.  Only [None] ever goes on the kill
    queue, so an item of it carries nothing. *)
Record Queues (Image : Type) : Type := mkQueues {
  task_queue : list (option Image);
  kill_queue : list unit
}.

Definition put {A} (q : list A) (item : A) : list A := q ++ [item].

Definition empty {A} (q : list A) : bool :=
  match q with [] => true | _ :: _ => false end.

Definition kill {Image} (self : Queues Image) : Queues Image :=
  let kq := put (kill_queue self) tt in
  let tq := put (task_queue self) None in
  {| task_queue := tq; kill_queue := kq |}.

Section Workers.
Context {Image Plate Scanner : Type} {plate_api : PlateApi Plate}.

(** [Image(frame).to_grayscale()]; the image class is not under src/. *)
Variable to_grayscale : Image -> Image.

(** The scanner classes are not under src/: the two constructors, and
    [scan_next_frame], which returns the result for the frame and leaves the
    scanner object in a new state. *)
Variable OpenScanner : Z -> Scanner.
Variable GeometryScanner : string -> Z -> Scanner.
Variable scan_next_frame : Scanner -> Image -> ScanResult Plate * Scanner.

(** *** [_capture_worker] *)

(** The body of [while kill_queue.empty()].  [break] leaves the loop with
    nothing more put by the body.  As in [continuous.py], a pass with no frame
    from the camera ends in an exception, and the drawing is left out; so is
    the fallback to camera 0 before the loop. *)
Definition capture_pass (last_time : Q) (tk : Tick Image) : Pass Image :=
  match frame tk with
  | None => Except []
  | Some img =>
      let '(log, last_time') :=
        if (qsize tk <? Q_LIMIT)%Z
           && Qle_bool INTERVAL (now_test tk - last_time)
        then ([PutFrame (now_put tk) img], now_after tk)
        else ([], last_time) in
      if exit_key_pressed tk
      then Break log
      else Next log last_time'
  end.

(** After the loop: [task_queue.put(None)], then the camera is released. *)
Definition clean_up (log : list (TaskPut Image)) : Capture Image :=
  Stopped (log ++ [PutSentinel]).

Fixpoint capture_loop (ticks : list (Tick Image)) (last_time : Q)
  : Capture Image :=
  match ticks with
  | [] => Looping [] last_time
  | tk :: rest =>
      if kill_queue_empty tk then
        match capture_pass last_time tk with
        | Next log t => earlier log (capture_loop rest t)
        | Break log => clean_up log
        | Except log => Raised log
        end
      else clean_up []
  end.

Definition _capture_worker (start : Q) (ticks : list (Tick Image))
  : Capture Image :=
  capture_loop ticks start.

(** *** [_scanner_worker] *)

Inductive Color : Type := Green | Red.

Inductive Overlay : Type :=
| TextOverlay  (text : string) (color : Color)
| PlateOverlay (plate : option Plate) (options : Options).

Inductive Event : Type :=
| print_summary (r : ScanResult Plate)
| overlay_put   (o : Overlay)
| result_put    (plate : option Plate) (image : Image)
| Beep          (frequency duration : Z).

Definition is_result_put (e : Event) : bool :=
  match e with result_put _ _ => true | _ => false end.

Definition is_overlay_put (e : Event) : bool :=
  match e with overlay_put _ => true | _ => false end.

(** [_plate_beep]: the beep it sounds, if any; [None] when it raises (no
    plate to read the counts from, a frequency that cannot be computed, or
    one that [winsound.Beep] refuses). *)
Definition _plate_beep (plate : option Plate) (options : Options)
  : option (list Event) :=
  if negb (scan_beep options) then Some []
  else
    match plate with
    | None => None
    | Some p =>
        match beep_frequency (num_slots p) (num_valid_barcodes p) with
        | python.Raised _ => None
        | python.Returned frequency =>
            if winsound.Beep_sounds frequency
            then Some [Beep frequency 200]
            else None
        end
    end.

(** The variables of [_scanner_worker] that live across frames. *)
Record Vars : Type := mkVars {
  last_plate_time : Q;
  scanner         : Scanner
}.

Inductive Step : Type :=
| Done   (vars : Vars) (out : list Event)
| Failed (out : list Event).

(** The body of [while True] for a frame that is not the sentinel; [now] is
    the reading of the clock that the body takes. *)
Definition process_frame (options : Options) (v : Vars) (now : Q)
  (frame : Image) : Step :=
  let image := frame in
  let gray_image := to_grayscale image in
  let '(scan_result, scanner') := scan_next_frame (scanner v) gray_image in
  let printed :=
    if console_frame options then [print_summary scan_result] else [] in
  if success scan_result then
    let last_plate_time' := now in
    let plate := plate scan_result in
    let reported :=
      if any_new_barcodes scan_result then [result_put plate image] else [] in
    if already_scanned scan_result then
      Done (mkVars last_plate_time' scanner')
           (printed ++ [overlay_put (TextOverlay SCANNED_TAG Green)]
                    ++ reported)
    else if any_valid_barcodes scan_result then
      match _plate_beep plate options with
      | None => Failed (printed ++ [overlay_put (PlateOverlay plate options)])
      | Some beeps =>
          Done (mkVars last_plate_time' scanner')
               (printed ++ overlay_put (PlateOverlay plate options) :: beeps
                        ++ reported)
      end
    else Done (mkVars last_plate_time' scanner') (printed ++ reported)
  else
    let time_since_plate := (now - last_plate_time v)%Q in
    Done (mkVars (last_plate_time v) scanner')
         (printed ++
          if negb (Qle_bool time_since_plate NO_PUCK_TIME)
          then [overlay_put (TextOverlay (error scan_result) Red)]
          else []).

Inductive Run : Type :=
| Exited  (vars : Vars) (out : list Event) (unread : list (option Image))
| Waiting (vars : Vars) (out : list Event)
| Crashed (out : list Event).

Definition emitted (pre : list Event) (r : Run) : Run :=
  match r with
  | Exited v out unread => Exited v (pre ++ out) unread
  | Waiting v out => Waiting v (pre ++ out)
  | Crashed out => Crashed (pre ++ out)
  end.

(** [clock k] is the reading of the clock in the [k]-th pass of the loop. *)
Fixpoint scanner_loop (options : Options) (clock : nat -> Q)
  (queue : list (option Image)) (k : nat) (v : Vars) : Run :=
  match queue with
  | [] => Waiting v []
  | None :: unread => Exited v [] unread
  | Some frame :: rest =>
      match process_frame options v (clock k) frame with
      | Done v' out => emitted out (scanner_loop options clock rest (S k) v')
      | Failed out => Crashed out
      end
  end.

(** The variables as the code before the loop sets them. *)
Definition start (options : Options) (started : Q) : Vars :=
  {| last_plate_time := started;
     scanner := if String.eqb (plate_type options) "None"
                then OpenScanner (barcode_size options)
                else GeometryScanner (plate_type options) (barcode_size options) |}.

Definition _scanner_worker (options : Options) (started : Q)
  (clock : nat -> Q) (queue : list (option Image)) : Run :=
  scanner_loop options clock queue 0 (start options started).

End Workers.

End camera_scanner.

(* ================================================================== *)
(** * The frame merge engine behind [Scanner.ScanImageContinuous]      *)
(* ================================================================== *)

Module merge_engine.
Import slot.

Section Engine.
Context {Barcode : Type} {api : BarcodeApi Barcode} {Image : Type}.

(** What the decode capability returns for a region of a frame (section 6 of
    the spec): a detected symbol, valid or unreadable as the barcode object
    says, an empty slot, or no result. *)
Inductive Decoded : Type :=
| Symbol (b : Barcode)
| Empty
| NoResult.

(** The number of slots of the plate type, the geometry alignment (the region
    of every slot index, or a failure) and the decode capability. *)
Variable slot_count : nat.
Variable align : Image -> option (nat -> Circle).
Variable decode : Image -> Circle -> Decoded.

(** Modelled from the spec: the plate class is not under src/.  A plate
    snapshot (section 3) is the ordered sequence of its slots and the
    alignment flag; the counts are derived from the slots. *)
Record Plate : Type := mkPlate {
  slots        : list (Slot Barcode);
  alignment_ok : bool
}.

Definition is_VALID (s : Slot Barcode) : bool :=
  State_eqb (returns state s) VALID.

(** Modelled from the spec: section 4.3, the candidate has slots in common
    with the remembered plate iff at every index where the candidate is valid
    the remembered plate has the same decoded data. *)
Definition same_data_at (remembered candidate : list (Slot Barcode)) (i : nat)
  : bool :=
  match nth_error candidate i with
  | None => true
  | Some c =>
      if is_VALID c then
        match nth_error remembered i with
        | None => false
        | Some r => String.eqb (returns barcode_data r) (returns barcode_data c)
        end
      else true
  end.

(** Modelled from the spec: the attributes and methods of a plate that the
    scan worker uses, over the slots.  The alignment flag is [scan_ok]; a
    plate is fully valid when every slot is Valid (section 4.2); the counts
    are the number of slots and of Valid slots (section 3). *)
#[local] Instance Plate_api : PlateApi Plate := {
  scan_ok p := alignment_ok p;
  has_slots_in_common remembered candidate :=
    forallb (same_data_at (slots remembered) (slots candidate))
            (seq 0 (List.length (slots candidate)));
  is_full_valid p := forallb is_VALID (slots p);
  num_slots p := Z.of_nat (List.length (slots p));
  num_valid_barcodes p := Z.of_nat (List.length (List.filter is_VALID (slots p)))
}.

(** [setBarcode] / [setEmpty] / [setNoResult], as the decode result says. *)
Definition record (d : Decoded) : Method unit :=
  match d with
  | Symbol b => set_barcode (Some b)
  | Empty => set_empty
  | NoResult => set_no_result
  end.

(** Modelled from the spec: section 4.2, steps 2 to 4, slot by slot in
    ascending index: the bounds are set; a slot whose status is Valid is
    not decoded; any other slot is decoded on its region of this frame and
    the result recorded.  The second component lists the slot indices for
    which the decode capability was invoked. *)
Fixpoint scan_slots (frame : Image) (regions : nat -> Circle) (i : nat)
  (ss : list (Slot Barcode)) : list (Slot Barcode) * list nat :=
  match ss with
  | [] => ([], [])
  | s :: rest =>
      let s1 := after (set_bounds (Some (regions i))) s in
      let '(s2, called) :=
        if is_VALID s1 then (s1, [])
        else (after (record (decode frame (regions i))) s1, [i]) in
      let '(rest', calls) := scan_slots frame regions (S i) rest in
      (s2 :: rest', called ++ calls)
  end.

Definition fresh_slots : list (Slot Barcode) :=
  List.map (fun i => __init__ (Z.of_nat i)) (seq 0 slot_count).

(** Modelled from the spec: section 4.2, the merge of one frame into the
    previous plate (a fresh plate when there is none).  A frame whose
    alignment fails leaves the slots as they were (item 6); otherwise
    [new_frame] is called on every slot (step 1) and the slots are scanned. *)
Definition merge (previous : option Plate) (frame : Image)
  : Plate * list nat :=
  let working :=
    match previous with
    | None => fresh_slots
    | Some p => slots p
    end in
  match align frame with
  | None => (mkPlate working false, [])
  | Some regions =>
      let '(ss, calls) :=
        scan_slots frame regions 0 (List.map (after new_frame) working) in
      (mkPlate ss true, calls)
  end.

(** Modelled from the spec: [Scanner.ScanImage] and
    [Scanner.ScanImageContinuous], which are not under src/, as the merge
    engine; the frame holds barcodes when some slot was set in it. *)
Definition ScanImage (gray_image : Image) : Plate :=
  fst (merge None gray_image).

Definition ScanImageContinuous (gray_image : Image) (previous : Plate)
  : Plate * bool :=
  let plate := fst (merge (Some previous) gray_image) in
  (plate, existsb (returns barcode_this_frame) (slots plate)).

(** The scan worker of [continuous.py] over this engine. *)
Variable to_grayscale : Image -> Image.
Variable draw_on_image : Plate -> Image -> Image.
Variable crop_image : Plate -> Image -> Image.

Definition process_frame : continuous.Vars -> Image -> continuous.Step :=
  continuous.process_frame to_grayscale draw_on_image crop_image
    ScanImage ScanImageContinuous.

Definition scanner_loop : list (option Image) -> continuous.Vars -> continuous.Run :=
  continuous.scanner_loop to_grayscale draw_on_image crop_image
    ScanImage ScanImageContinuous.

(** The slot indices for which the scan of [frame] invokes the decode
    capability, when the worker's variables are [v]. *)
Definition calls_for (v : continuous.Vars (Plate := Plate)) (frame : Image)
  : list nat :=
  snd (merge (continuous.last_plate v) (to_grayscale frame)).

(** The slot indices decoded while the worker takes [queue], in order. *)
Fixpoint decode_calls (queue : list (option Image))
  (v : continuous.Vars (Plate := Plate)) : list nat :=
  match queue with
  | Some frame :: rest =>
      calls_for v frame ++
      match process_frame v frame with
      | continuous.Done v' _ => decode_calls rest v'
      | continuous.Failed _ => []
      end
  | _ => []
  end.

(** The variables the worker is left with, unless it died. *)
Definition final_vars (r : continuous.Run (Image := Image) (Plate := Plate))
  : option continuous.Vars :=
  match r with
  | continuous.Exited v _ _ => Some v
  | continuous.Waiting v _ => Some v
  | continuous.Crashed _ => None
  end.

(** The slot is Valid and holds barcode [b]. *)
Definition valid_with (b : Barcode) (s : Slot Barcode) : Prop :=
  _barcode s = Some b /\ returns state s = VALID.

(** Slot [i] of the worker's last plate is Valid and holds barcode [b]. *)
Definition holds_valid (v : continuous.Vars (Plate := Plate)) (i : nat)
  (b : Barcode) : Prop :=
  exists p s,
    continuous.last_plate v = Some p /\
    nth_error (slots p) i = Some s /\
    valid_with b s.

End Engine.

End merge_engine.

(* ================================================================== *)
(** * Sequences of calls on a slot                                     *)
(* ================================================================== *)

Module slot_calls.
Import slot.

Section WithBarcode.
Context {Barcode : Type} {api : BarcodeApi Barcode}.

(** A call of one of the methods of [Slot] that assign attributes. *)
Inductive Call : Type :=
| call_new_frame
| call_set_bounds (b : option Circle)
| call_set_barcode_position (coord : option Point)
| call_set_barcode (barcode : option Barcode)
| call_set_empty
| call_set_no_result.

Definition perform (c : Call) : Method unit :=
  match c with
  | call_new_frame => new_frame
  | call_set_bounds b => set_bounds b
  | call_set_barcode_position coord => set_barcode_position coord
  | call_set_barcode barcode => set_barcode barcode
  | call_set_empty => set_empty
  | call_set_no_result => set_no_result
  end.

(** The slot after the calls, made in order. *)
Fixpoint perform_all (cs : list Call) (self : Slot Barcode) : Slot Barcode :=
  match cs with
  | [] => self
  | c :: rest => perform_all rest (after (perform c) self)
  end.

Definition is_new_frame (c : Call) : bool :=
  match c with call_new_frame => true | _ => false end.

(** The call is [set_barcode] with a barcode object. *)
Definition stores_barcode (c : Call) : bool :=
  match c with call_set_barcode (Some _) => true | _ => false end.

End WithBarcode.

Arguments Call Barcode : clear implicits.

End slot_calls.

(* ================================================================== *)
(** * [continuous.py]: what the capture worker draws                   *)
(* ================================================================== *)

Module continuous_display.

Section Display.
Context {Plate : Type}.

(** The colours of [CvImage] that [Overlay.draw_on_image] names. *)
Inductive Colour : Type := BLUE | GREEN | BLACK.

(** Where a text goes: [cv_image.center()] or a point. *)
Inductive Anchor : Type :=
| center
| at_point (x y : Z).

(** The drawing calls that [Overlay.draw_on_image] makes on the image;
    [CvImage] and the plate class, which carry them out, are not under
    src/. *)
Inductive Drawing : Type :=
| draw_plate (plate : Plate) (color : Colour)
| draw_pins  (plate : Plate)
| draw_text  (text : string) (position : Anchor) (color : Colour)
             (centered : bool) (scale thickness : Z).

(** An overlay with the reading of the clock at which it was made
    ([self._start_time = time.time()]). *)
Record Shown : Type := mkShown {
  overlay     : continuous.Overlay (Plate := Plate);
  _start_time : Q
}.

(** ["Press '{}' to exit scanning mode".format(EXIT_KEY)] *)
Definition exit_msg : string :=
  ("Press '" ++ continuous.EXIT_KEY ++ "' to exit scanning mode")%string.

(** [Overlay.draw_on_image], with [now] the reading of the clock in the
    test of the lifetime: the drawing calls, in order. *)
Definition draw_on_image (self : Shown) (now : Q) : list Drawing :=
  (if negb (Qle_bool (inject_Z (continuous._lifetime (overlay self)))
                     (now - _start_time self))
   then
     (match continuous._plate (overlay self) with
      | Some plate => [draw_plate plate BLUE; draw_pins plate]
      | None => []
      end)
     ++
     (match continuous._text (overlay self) with
      | Some _ => [draw_text continuous.SCANNED_TAG center GREEN true 4 3]
      | None => []
      end)
   else [])
  ++ [draw_text exit_msg (at_point 20 50) BLACK false 1 2].

(** [while not overlay_queue.empty(): latest_overlay = overlay_queue.get(False)]
    on the overlays that the queue holds. *)
Fixpoint drain (overlay_queue : list Shown) (latest_overlay : Shown) : Shown :=
  match overlay_queue with
  | [] => latest_overlay
  | o :: rest => drain rest o
  end.

End Display.

Arguments Shown Plate : clear implicits.
Arguments Drawing Plate : clear implicits.

End continuous_display.

(* ================================================================== *)
(** * What a run of a scan worker sent out                             *)
(* ================================================================== *)

Module runs.

Section Runs.
Context {Image Plate Scanner : Type}.

Definition continuous_out
  (r : continuous.Run (Image := Image) (Plate := Plate))
  : list continuous.Event :=
  match r with
  | continuous.Exited _ out _ => out
  | continuous.Waiting _ out => out
  | continuous.Crashed out => out
  end.

Definition continuous_vars
  (r : continuous.Run (Image := Image) (Plate := Plate))
  : option continuous.Vars :=
  match r with
  | continuous.Exited v _ _ => Some v
  | continuous.Waiting v _ => Some v
  | continuous.Crashed _ => None
  end.

Definition camera_out
  (r : camera_scanner.Run (Image := Image) (Plate := Plate)
         (Scanner := Scanner))
  : list camera_scanner.Event :=
  match r with
  | camera_scanner.Exited _ out _ => out
  | camera_scanner.Waiting _ out => out
  | camera_scanner.Crashed out => out
  end.

Definition camera_crashed
  (r : camera_scanner.Run (Image := Image) (Plate := Plate)
         (Scanner := Scanner)) : bool :=
  match r with
  | camera_scanner.Crashed _ => true
  | _ => false
  end.

Definition is_beep (e : camera_scanner.Event (Image := Image) (Plate := Plate))
  : bool :=
  match e with camera_scanner.Beep _ _ => true | _ => false end.

(** What the variables of [continuous.scanner_worker] hold between frames:
    a last plate that is aligned, a last full plate that is aligned and
    fully valid, and, while there is no last plate, no last full plate and a
    clear [frame_contains_barcodes]. *)
Definition remembers_aligned {plate_api : PlateApi Plate}
  (v : continuous.Vars (Plate := Plate)) : Prop :=
  (forall p, continuous.last_plate v = Some p -> scan_ok p = true) /\
  (forall p, continuous.last_full_plate v = Some p ->
             scan_ok p = true /\ is_full_valid p = true) /\
  (continuous.last_plate v = None ->
   continuous.frame_contains_barcodes v = false /\
   continuous.last_full_plate v = None).

End Runs.

(** The frequency of [camera_scanner.py] for the two counts is from 37 to
    10037 Hz and is the floor of [10000 * (n - v) / n] plus 37, or one below
    it. *)
Definition camera_beep_in_range (n v : Z) : bool :=
  match camera_scanner.beep_frequency n v with
  | python.Returned f =>
      ((37 <=? f) && (f <=? 10037)
       && (10000 * (n - v) / n + 36 <=? f)
       && (f <=? 10000 * (n - v) / n + 37))%Z
  | python.Raised _ => false
  end.

End runs.

(* ================================================================== *)
(** * Concrete values on which the definitions are run                 *)
(* ================================================================== *)

Module samples.
Import slot.

(** A tube whose barcode was read. *)
Definition tube : SymbolRead := mkSymbolRead "DF150E0443" true false.

(** Slot 3 after [set_barcode(tube)]. *)
Definition read_slot : Slot SymbolRead :=
  after (set_barcode (Some tube)) (__init__ 3).

(** A slot with the empty flag set while a barcode object is still stored. *)
Definition stale_empty_slot : Slot SymbolRead := with_empty true read_slot.

(** Frames are numbered.  Frame 0 shows no plate; the others show a plate of
    three slots, 100 pixels apart. *)
Definition align (frame : nat) : option (nat -> Circle) :=
  match frame with
  | O => None
  | S _ => Some (fun i => ((Z.of_nat i * 100, 0), 40)%Z)
  end.

(** In frame 1 only the leftmost slot can be read; in later frames every
    slot shows the tube. *)
Definition decode (frame : nat) (region : Circle)
  : merge_engine.Decoded (Barcode := SymbolRead) :=
  match frame with
  | 1%nat => if (fst (fst region) =? 0)%Z
             then merge_engine.Symbol tube
             else merge_engine.NoResult
  | _ => merge_engine.Symbol tube
  end.

Definition Plate : Type := merge_engine.Plate (Barcode := SymbolRead).

#[export] Instance plate_api : PlateApi Plate := merge_engine.Plate_api.

Definition plain (frame : nat) : nat := frame.
Definition untouched (p : Plate) (frame : nat) : nat := frame.

(** The scan worker of [continuous.py] over the merge engine, for plates of
    three slots. *)
Definition process_frame
  : continuous.Vars (Plate := Plate) -> nat -> continuous.Step :=
  merge_engine.process_frame 3 align decode plain untouched untouched.

(** The slot indices decoded while that worker takes a queue. *)
Definition decode_calls
  : list (option nat) -> continuous.Vars (Plate := Plate) -> list nat :=
  merge_engine.decode_calls 3 align decode plain untouched untouched.

(** The worker's variables after frame 1: slot 0 is read. *)
Definition after_frame_1 : continuous.Vars (Plate := Plate) :=
  match process_frame continuous.start 1%nat with
  | continuous.Done v _ => v
  | continuous.Failed _ => continuous.start
  end.

(** A scanner for [camera_scanner.py] that counts the frames it has seen and
    reports frame 0 as not aligned, frame 1 as partial progress, frame 2 as
    new barcodes and any later frame as a plate already scanned. *)
Definition full_plate : Plate :=
  merge_engine.mkPlate [read_slot; read_slot; read_slot] true.

Definition scan_next_frame (seen : nat) (frame : nat)
  : camera_scanner.ScanResult Plate * nat :=
  (match frame with
   | 0%nat => camera_scanner.mkScanResult camera_scanner.AlignmentFailed
                None "No plate" false false
   | 1%nat => camera_scanner.mkScanResult camera_scanner.PartialProgress
                (Some full_plate) "" true false
   | 2%nat => camera_scanner.mkScanResult camera_scanner.NewBarcodesFound
                (Some full_plate) "" true true
   | _ => camera_scanner.mkScanResult camera_scanner.DuplicateOfLastReported
                (Some full_plate) "" true false
   end, S seen).

Definition options : camera_scanner.Options :=
  camera_scanner.mkOptions false "../debug-output/" "CPS_Puck" 12 false true.

Definition camera_vars : camera_scanner.Vars (Scanner := nat) :=
  camera_scanner.mkVars 0 0%nat.

(** The scan worker of [camera_scanner.py] over this scanner. *)
Definition camera_frame
  : camera_scanner.Options -> camera_scanner.Vars -> Q -> nat
    -> camera_scanner.Step (Image := nat) (Plate := Plate) :=
  camera_scanner.process_frame plain scan_next_frame.

(** Passes of a capture loop, 60 ms apart, the task queue empty every time;
    the exit key is pressed in the last one. *)
Definition tick (ms : Z) (quit : bool) : Tick nat :=
  {| kill_queue_empty := true;
     frame := Some (Z.to_nat ms);
     qsize := 0;
     now_test := ms # 1000;
     now_put := ms # 1000;
     now_after := (ms + 1) # 1000;
     exit_key_pressed := quit |}.

(** A pass in which the kill queue is found non-empty. *)
Definition killed_tick : Tick nat :=
  {| kill_queue_empty := false;
     frame := Some 7%nat;
     qsize := 0;
     now_test := 1;
     now_put := 1;
     now_after := 1;
     exit_key_pressed := false |}.

(** The scan loop of [camera_scanner.py] over the sample scanner, with a
    clock that stands at 0. *)
Definition camera_loop
  : list (option nat) -> nat -> camera_scanner.Vars
    -> camera_scanner.Run (Image := nat) (Plate := Plate) :=
  camera_scanner.scanner_loop plain scan_next_frame options (fun _ => 0).

Definition ticks : list (Tick nat) :=
  [tick 60 false; tick 120 false; tick 180 false; tick 240 false;
   tick 300 true].

End samples.

(* ================================================================== *)
(** * Further values on which the definitions are run                  *)
(* ================================================================== *)

Module examples.
Import slot slot_calls.

(** A visit of a slot in one frame: the barcode is read, then the slot is
    found empty. *)
Definition visit : list (Call SymbolRead) :=
  [call_new_frame; call_set_barcode (Some samples.tube);
   call_set_bounds (Some ((10, 20), 40)%Z); call_set_empty].

(** Passes of a capture loop that all find an item on the task queue. *)
Definition busy_tick (ms : Z) : Tick nat :=
  {| kill_queue_empty := true;
     frame := Some (Z.to_nat ms);
     qsize := 1;
     now_test := ms # 1000;
     now_put := ms # 1000;
     now_after := ms # 1000;
     exit_key_pressed := false |}.

Definition busy_ticks : list (Tick nat) :=
  [busy_tick 200; busy_tick 400; busy_tick 600].

(** A pass in which the camera gives no frame. *)
Definition blind_tick : Tick nat :=
  {| kill_queue_empty := true;
     frame := None;
     qsize := 0;
     now_test := 1;
     now_put := 1;
     now_after := 1;
     exit_key_pressed := false |}.

(** The scan loop of [continuous.py] over the sample merge engine. *)
Definition scanner_loop
  : list (option nat) -> continuous.Vars (Plate := samples.Plate)
    -> continuous.Run (Image := nat) :=
  merge_engine.scanner_loop 3 samples.align samples.decode
    samples.plain samples.untouched samples.untouched.

(** The worker's variables after frames 1 and 2 and the sentinel. *)
Definition session_vars : continuous.Vars (Plate := samples.Plate) :=
  match runs.continuous_vars
          (scanner_loop [Some 1%nat; Some 2%nat; None] continuous.start) with
  | Some v => v
  | None => continuous.start
  end.

(** The plate after frames 1 and 2: every slot is read. *)
Definition plate_after_frame_2 : samples.Plate :=
  fst (merge_engine.merge 3 samples.align samples.decode
         (continuous.last_plate samples.after_frame_1) 2%nat).

(** Scans that return the full sample plate for every frame. *)
Definition fixed_ScanImage (gray : nat) : samples.Plate := samples.full_plate.
Definition fixed_ScanImageContinuous (gray : nat) (previous : samples.Plate)
  : samples.Plate * bool :=
  (samples.full_plate, true).

(** A scanner that reports valid barcodes on a result with no plate. *)
Definition plateless_scan (seen : nat) (frame : nat)
  : camera_scanner.ScanResult samples.Plate * nat :=
  (camera_scanner.mkScanResult camera_scanner.PartialProgress None ""
     true false,
   S seen).


(** The sample options with the beep switched off. *)
Definition quiet_options : camera_scanner.Options :=
  camera_scanner.mkOptions false "../debug-output/" "CPS_Puck" 12 false false.

(** The overlay that the scan worker of [continuous.py] puts for a plate
    already scanned, made at 10 s. *)
Definition scanned_overlay : continuous_display.Shown samples.Plate :=
  continuous_display.mkShown
    (continuous.mkOverlay None (Some continuous.SCANNED_TAG) 1) 10.

End examples.

(* ================================================================== *)
(** * Properties of [slot.py]                                          *)
(* ================================================================== *)

(** Unfold the method combinators and split on the tests a method makes. *)
Ltac run_method :=
  unfold slot.after, slot.returns, slot.new_frame, slot.set_barcode,
    slot.set_empty, slot.set_no_result, slot.set_bounds, slot.state,
    slot.barcode_data, slot.barcode_this_frame,
    slot.bind, slot.attr, slot.assign, slot.ret in *;
  simpl in *.

Ltac split_tests :=
  repeat (match goal with
          | |- context [if ?c then _ else _] =>
              first [ is_var c; destruct c | destruct c eqn:? ]
          end; simpl in *).

Section SlotProperties.
Import slot.
Context {Barcode : Type} {api : BarcodeApi Barcode}.

(** C8: [new_frame()] sets the per-frame flag to false and adds one to the
    frame counter; number, bounds, barcode position, stored barcode and
    empty flag, and with them [state()], are as before the call. *)
Theorem new_frame_only_clears_flag_and_counts :
  forall s : Slot Barcode,
    let s' := after new_frame s in
    returns barcode_this_frame s' = false /\
    _total_frames s' = (_total_frames s + 1)%Z /\
    _number s' = _number s /\
    _bounds s' = _bounds s /\
    _barcode_position s' = _barcode_position s /\
    _barcode s' = _barcode s /\
    _empty s' = _empty s /\
    returns state s' = returns state s.
Proof.
  intros [n bd pos bc e tf fl]; cbv zeta. run_method.
  repeat split; try reflexivity.
  split_tests; reflexivity.
Qed.

(** C4: [state()] assigns nothing and follows the precedence Empty, then
    Unreadable for a stored barcode that is unreadable, then Valid for a
    stored barcode that is valid, then NoResult; with the empty flag set
    the answer is Empty whatever barcode is stored. *)
Theorem state_is_pure_with_precedence :
  forall s : Slot Barcode,
    after state s = s /\
    (_empty s = true -> returns state s = EMPTY) /\
    (_empty s = false ->
     forall b, _barcode s = Some b -> is_unreadable b = true ->
               returns state s = UNREADABLE) /\
    (_empty s = false ->
     forall b, _barcode s = Some b -> is_unreadable b = false ->
               is_valid b = true -> returns state s = VALID) /\
    (_empty s = false ->
     (forall b, _barcode s = Some b ->
                is_unreadable b = false /\ is_valid b = false) ->
     returns state s = NO_RESULT).
Proof.
  intros [n bd pos bc e tf fl]. run_method.
  split.
  - split_tests; reflexivity.
  - repeat split.
    + intros ->. reflexivity.
    + intros -> b -> Hu. simpl. rewrite Hu. reflexivity.
    + intros -> b -> Hu Hv. simpl. rewrite Hu, Hv. reflexivity.
    + intros -> Hno. destruct bc as [b|]; simpl; [|reflexivity].
      destruct (Hno b eq_refl) as [-> ->]. reflexivity.
Qed.

(** C10: [barcode_data()] always returns a string and assigns nothing: the
    empty symbol when the empty flag is set, whatever barcode is stored; the
    data of the stored barcode when there is one and the flag is not set;
    the not-found symbol otherwise. *)
Theorem barcode_data_is_total :
  forall s : Slot Barcode,
    (exists text : string, barcode_data s = (text, s)) /\
    (_empty s = true -> returns barcode_data s = EMPTY_SLOT_SYMBOL) /\
    (_empty s = false ->
     forall b, _barcode s = Some b -> returns barcode_data s = data b) /\
    (_empty s = false -> _barcode s = None ->
     returns barcode_data s = NOT_FOUND_SLOT_SYMBOL).
Proof.
  intros [n bd pos bc e tf fl]. run_method.
  split.
  - destruct e; simpl; [eexists; reflexivity|].
    destruct bc; eexists; reflexivity.
  - repeat split.
    + intros ->. reflexivity.
    + intros -> b ->. reflexivity.
    + intros -> ->. reflexivity.
Qed.

(** C3, as the code has it: [set_barcode(None)] stores [None] in place of the
    barcode and leaves every other attribute as it was, so [state()] is Empty
    when the empty flag is set and NoResult otherwise; the status is the
    one before the call exactly when that was Empty or NoResult. *)
Theorem set_barcode_None_clears_the_barcode :
  forall s : Slot Barcode,
    let s' := after (set_barcode None) s in
    _barcode s' = None /\
    _empty s' = _empty s /\
    _barcode_set_this_frame s' = _barcode_set_this_frame s /\
    _number s' = _number s /\
    _bounds s' = _bounds s /\
    _barcode_position s' = _barcode_position s /\
    _total_frames s' = _total_frames s /\
    returns state s' = (if _empty s then EMPTY else NO_RESULT) /\
    (returns state s' = returns state s <->
     returns state s = EMPTY \/ returns state s = NO_RESULT).
Proof.
  intros [n bd pos bc e tf fl] s'. subst s'. run_method.
  repeat split; try (destruct e; reflexivity).
  - destruct e; simpl; [auto|].
    destruct (and_call bc is_unreadable); simpl; [discriminate|].
    destruct (and_call bc is_valid); simpl; [discriminate|auto].
  - destruct e; simpl; [reflexivity|].
    destruct (and_call bc is_unreadable); simpl;
      [intros [?|?]; discriminate|].
    destruct (and_call bc is_valid); simpl;
      [intros [?|?]; discriminate|reflexivity].
Qed.

End SlotProperties.

(** C4 on a slot whose empty flag is set over a stored, valid barcode. *)
Lemma state_is_pure_with_precedence_witness :
  slot._barcode samples.stale_empty_slot = Some samples.tube /\
  slot.returns slot.state samples.stale_empty_slot = slot.EMPTY.
Proof.
  split; [reflexivity|].
  apply (proj1 (proj2 (state_is_pure_with_precedence samples.stale_empty_slot))).
  reflexivity.
Defined.

(** C10 on the same slot, and on a slot that holds a barcode. *)
Lemma barcode_data_is_total_witness :
  slot.returns slot.barcode_data samples.stale_empty_slot
    = slot.EMPTY_SLOT_SYMBOL /\
  slot.returns slot.barcode_data samples.read_slot = "DF150E0443"%string.
Proof.
  split.
  - apply (proj1 (proj2 (barcode_data_is_total samples.stale_empty_slot))).
    reflexivity.
  - exact (proj1 (proj2 (proj2 (barcode_data_is_total samples.read_slot)))
             eq_refl samples.tube eq_refl).
Defined.

(** C3 as stated fails: a slot that holds a valid barcode is Valid, and is
    NoResult after [set_barcode(None)]. *)
Lemma set_barcode_None_changes_state :
  slot.returns slot.state samples.read_slot = slot.VALID /\
  slot.returns slot.state
    (slot.after (slot.set_barcode None) samples.read_slot) = slot.NO_RESULT /\
  slot.returns slot.state
    (slot.after (slot.set_barcode None) samples.read_slot)
  <> slot.returns slot.state samples.read_slot.
Proof.
  repeat split. discriminate.
Qed.

(** The amended C3 on the slot that holds a valid barcode and on an empty
    slot: the first loses its status, the second keeps it. *)
Lemma set_barcode_None_clears_the_barcode_witness :
  slot.returns slot.state
    (slot.after (slot.set_barcode None) samples.read_slot) = slot.NO_RESULT /\
  slot.returns slot.state
    (slot.after (slot.set_barcode None) samples.stale_empty_slot)
  = slot.returns slot.state samples.stale_empty_slot.
Proof.
  split.
  - apply (set_barcode_None_clears_the_barcode samples.read_slot).
  - apply (set_barcode_None_clears_the_barcode samples.stale_empty_slot).
    left. reflexivity.
Defined.

(* ================================================================== *)
(** * The beep frequency                                               *)
(* ================================================================== *)

(** C9, as the code has it: the two beeps do not have the same frequency.
    For a puck of sixteen slots with five valid barcodes [continuous.py],
    which floor-divides the fraction of slots that are not valid, beeps at
    37 Hz, while [camera_scanner.py], which divides truly, beeps at 6912 Hz,
    the floor of [10000 * 11 / 16] plus 37.  [camera_scanner.py] computes in
    doubles: for a plate of a hundred slots with thirty-one valid it beeps at
    6936 Hz, one below the floor of [10000 * 69 / 100] plus 37. *)
Theorem beep_frequencies_differ :
  continuous.beep_frequency 16 5 = python.Returned 37%Z /\
  camera_scanner.beep_frequency 16 5 = python.Returned 6912%Z /\
  (10000 * (16 - 5) / 16 + 37 = 6912)%Z /\
  camera_scanner.beep_frequency 100 31 = python.Returned 6936%Z /\
  (10000 * (100 - 31) / 100 + 37 = 6937)%Z.
Proof.
  vm_compute. repeat split.
Qed.

(* ================================================================== *)
(** * Properties of the scan workers                                   *)
(* ================================================================== *)

Section ScanWorkerProperties.
Context {Image Plate Scanner : Type} {plate_api : PlateApi Plate}.

(** The collaborators of [continuous.scanner_worker]. *)
Variable to_grayscale : Image -> Image.
Variable draw_on_image : Plate -> Image -> Image.
Variable crop_image : Plate -> Image -> Image.
Variable ScanImage : Image -> Plate.
Variable ScanImageContinuous : Image -> Plate -> Plate * bool.

(** The collaborators of [camera_scanner._scanner_worker]. *)
Variable image_to_grayscale : Image -> Image.
Variable OpenScanner : Z -> Scanner.
Variable GeometryScanner : string -> Z -> Scanner.
Variable scan_next_frame :
  Scanner -> Image -> camera_scanner.ScanResult Plate * Scanner.

Abbreviation continuous_scan :=
  (continuous.scan ScanImage ScanImageContinuous).
Abbreviation continuous_frame :=
  (continuous.process_frame to_grayscale draw_on_image crop_image
     ScanImage ScanImageContinuous).
Abbreviation camera_frame :=
  (camera_scanner.process_frame image_to_grayscale scan_next_frame).
Abbreviation camera_loop :=
  (camera_scanner.scanner_loop image_to_grayscale scan_next_frame).

(** C7: a frame whose alignment fails leaves what the scan worker remembers
    as it was and emits no result.  In [continuous.py], [last_plate] and
    [last_full_plate] keep their values and nothing at all is sent.  In
    [camera_scanner.py], [last_plate_time] keeps its value and the frame sends
    nothing but the console summary and, only once more than
    [NO_PUCK_TIME] has passed since the last plate, the error overlay. *)
Theorem failed_alignment_keeps_memory :
  forall (frame : Image)
         (v : continuous.Vars (Plate := Plate))
         (options : camera_scanner.Options)
         (w : camera_scanner.Vars (Scanner := Scanner)) (now : Q),
    (scan_ok (fst (continuous_scan v (to_grayscale frame))) = false ->
     exists v',
       continuous_frame v frame = continuous.Done v' [] /\
       continuous.last_plate v' = continuous.last_plate v /\
       continuous.last_full_plate v' = continuous.last_full_plate v) /\
    (let r := fst (scan_next_frame (camera_scanner.scanner w)
                     (image_to_grayscale frame)) in
     camera_scanner.success r = false ->
     exists w' out,
       camera_frame options w now frame = camera_scanner.Done w' out /\
       camera_scanner.last_plate_time w' = camera_scanner.last_plate_time w /\
       List.filter camera_scanner.is_result_put out = [] /\
       (forall e, In e out ->
          e = camera_scanner.print_summary r \/
          (e = camera_scanner.overlay_put
                 (camera_scanner.TextOverlay (camera_scanner.error r)
                    camera_scanner.Red) /\
           (camera_scanner.NO_PUCK_TIME
              < now - camera_scanner.last_plate_time w)%Q))).
Proof.
  intros frame v options w now. split.
  - unfold continuous.process_frame.
    destruct (continuous_scan v (to_grayscale frame)) as [plate contains].
    simpl. intros ->. eexists. repeat split.
  - unfold camera_scanner.process_frame.
    destruct (scan_next_frame (camera_scanner.scanner w)
                (image_to_grayscale frame)) as [r sc].
    simpl. intros ->.
    eexists. eexists. split; [reflexivity|]. split; [reflexivity|].
    destruct (camera_scanner.console_frame options);
      destruct (Qle_bool (now - camera_scanner.last_plate_time w)
                  camera_scanner.NO_PUCK_TIME) eqn:Elapsed;
      simpl; (split; [reflexivity|]); intros e He; simpl in He;
      repeat (destruct He as [He|He]; [subst e|]); try contradiction;
      try (left; reflexivity);
      right; (split; [reflexivity|]);
      apply Qnot_le_lt; intros Hle; apply Qle_bool_iff in Hle; congruence.
Qed.


End ScanWorkerProperties.

(** C7 on frame 0, which shows no plate: in [continuous.py] after a first
    frame was scanned, and in [camera_scanner.py] five seconds after the last
    plate. *)
Lemma failed_alignment_keeps_memory_witness :
  (exists v',
     samples.process_frame samples.after_frame_1 0%nat = continuous.Done v' [] /\
     continuous.last_plate v' = continuous.last_plate samples.after_frame_1 /\
     continuous.last_full_plate v'
       = continuous.last_full_plate samples.after_frame_1) /\
  (exists w' out,
     samples.camera_frame samples.options samples.camera_vars 5 0%nat
     = camera_scanner.Done w' out /\
     camera_scanner.last_plate_time w' = 0 /\
     List.filter camera_scanner.is_result_put out = []).
Proof.
  destruct (failed_alignment_keeps_memory (plate_api := samples.plate_api)
              samples.plain samples.untouched samples.untouched
              (merge_engine.ScanImage 3 samples.align samples.decode)
              (merge_engine.ScanImageContinuous 3 samples.align samples.decode)
              samples.plain samples.scan_next_frame
              0%nat samples.after_frame_1 samples.options samples.camera_vars 5)
    as [Hcontinuous Hcamera].
  split.
  - exact (Hcontinuous eq_refl).
  - destruct (Hcamera eq_refl) as (w' & out & Hrun & Htime & Hres & _).
    exists w', out. repeat split; assumption.
Defined.



(* ================================================================== *)
(** * The capture workers: frame shedding                              *)
(* ================================================================== *)

Section Spacing.
Open Scope Q_scope.

Lemma spaced_from_earlier (gap lo lo' : Q) (ts : list Q) :
  lo' <= lo -> spaced gap lo ts -> spaced gap lo' ts.
Proof.
  destruct ts as [|t rest]; simpl; [trivial|].
  intros Hle [Hfirst Hrest]. split; [lra|exact Hrest].
Qed.

Lemma count_in_cons (a b t : Q) (ts : list Q) :
  count_in a b (t :: ts)
  = ((if in_window a b t then 1 else 0) + count_in a b ts)%nat.
Proof.
  unfold count_in. simpl. destruct (in_window a b t); reflexivity.
Qed.

Lemma in_window_iff (a b t : Q) :
  in_window a b t = true <-> a <= t /\ t < b.
Proof.
  unfold in_window. rewrite andb_true_iff, negb_true_iff, Qle_bool_iff.
  split; intros [Ha Hb]; split; try assumption.
  - apply Qnot_le_lt. intros Hle. apply Qle_bool_iff in Hle. congruence.
  - destruct (Qle_bool b t) eqn:E; [|reflexivity].
    apply Qle_bool_iff in E. lra.
Qed.

Lemma inject_succ (m : nat) :
  inject_Z (Z.of_nat (S m)) == inject_Z (Z.of_nat m) + 1.
Proof.
  rewrite Nat2Z.inj_succ. unfold Z.succ. rewrite inject_Z_plus. reflexivity.
Qed.

(** The instants of a spaced list that fall in a window: [n] of them span
    at least [(n - 1) * gap], and the last is at least [n * gap] after [lo]. *)
Lemma spaced_count (gap lo a b : Q) (ts : list Q) :
  0 < gap ->
  spaced gap lo ts ->
  (0 < count_in a b ts)%nat ->
  a + inject_Z (Z.of_nat (count_in a b ts)) * gap < b + gap /\
  lo + inject_Z (Z.of_nat (count_in a b ts)) * gap < b.
Proof.
  intros Hgap. revert lo.
  induction ts as [|t rest IH]; intros lo Hsp Hpos.
  - unfold count_in in Hpos. simpl in Hpos. lia.
  - destruct Hsp as [Hfirst Hrest].
    rewrite count_in_cons in *.
    specialize (IH t Hrest).
    destruct (in_window a b t) eqn:W.
    + apply in_window_iff in W. destruct W as [Wa Wb].
      change (1 + count_in a b rest)%nat with (S (count_in a b rest)).
      rewrite inject_succ.
      destruct (count_in a b rest) as [|m] eqn:M.
      * change (inject_Z (Z.of_nat 0)) with 0. split; lra.
      * destruct (IH ltac:(lia)) as [IH1 IH2]. split; lra.
    + simpl in *. destruct (IH Hpos) as [IH1 IH2]. split; lra.
Qed.

(** In a window of [T] seconds there are at most [ceil (T / gap)] instants of
    a spaced list. *)
Lemma spaced_window_bound (gap lo a T : Q) (ts : list Q) :
  0 < gap -> 0 <= T ->
  spaced gap lo ts ->
  (Z.of_nat (count_in a (a + T) ts) <= Qceiling (T / gap))%Z.
Proof.
  intros Hgap HT Hsp.
  destruct (count_in a (a + T) ts) as [|m] eqn:M.
  - assert (0 <= T / gap) as Hq
      by (apply Qle_shift_div_l; [exact Hgap|]; lra).
    apply Qceiling_resp_le in Hq. exact Hq.
  - pose proof (@spaced_count gap lo a (a + T) ts Hgap Hsp ltac:(lia))
      as [Hspan _].
    rewrite M in Hspan. rewrite inject_succ in Hspan.
    assert (inject_Z (Z.of_nat m) < T / gap) as Hlt.
    { apply Qlt_shift_div_l; [exact Hgap|]. lra. }
    pose proof (Qle_ceiling (T / gap)) as Hceil.
    assert (inject_Z (Z.of_nat m) < inject_Z (Qceiling (T / gap))) as Hz
      by (eapply Qlt_le_trans; eassumption).
    rewrite <- Zlt_Qlt in Hz. lia.
Qed.

End Spacing.

Section CaptureProperties.
Context {Image : Type}.
Open Scope Q_scope.

Lemma puts_earlier (pre : list (TaskPut Image)) (c : Capture Image) :
  puts (earlier pre c) = pre ++ puts c.
Proof. destruct c; reflexivity. Qed.

Lemma continuous_INTERVAL_positive : 0 < continuous.INTERVAL.
Proof. reflexivity. Qed.

Lemma camera_INTERVAL_positive : 0 < camera_scanner.INTERVAL.
Proof. reflexivity. Qed.

(** Split on the camera frame, the enqueue test and the exit key of a pass. *)
Ltac split_pass tk Test :=
  destruct (frame tk) as [img|]; simpl; [|trivial];
  match goal with
  | |- context [(?q && ?c)%bool] => destruct (q && c)%bool eqn:Test
  end;
  destruct (exit_key_pressed tk); simpl.

Ltac test_holds Test :=
  apply andb_true_iff in Test; destruct Test as [_ Test];
  apply Qle_bool_iff in Test.

Lemma continuous_loop_spaced (ticks : list (Tick Image)) :
  Forall clock_ok ticks ->
  forall t,
    spaced continuous.INTERVAL t
      (frame_times (puts (continuous.capture_loop ticks t))).
Proof.
  induction 1 as [|tk rest [Hput Hafter] _ IH]; intros t; simpl; [trivial|].
  unfold continuous.capture_pass.
  split_pass tk Test; rewrite ?puts_earlier; simpl.
  - test_holds Test. split; [lra|trivial].
  - test_holds Test. split; [lra|].
    apply spaced_from_earlier with (lo := now_after tk); [lra|apply IH].
  - trivial.
  - apply IH.
Qed.

Lemma camera_loop_spaced (ticks : list (Tick Image)) :
  Forall clock_ok ticks ->
  forall t,
    spaced camera_scanner.INTERVAL t
      (frame_times (puts (camera_scanner.capture_loop ticks t))).
Proof.
  induction 1 as [|tk rest [Hput Hafter] _ IH]; intros t; simpl; [trivial|].
  destruct (kill_queue_empty tk); simpl; [|trivial].
  unfold camera_scanner.capture_pass.
  split_pass tk Test; rewrite ?puts_earlier; simpl.
  - test_holds Test. split; [lra|trivial].
  - test_holds Test. split; [lra|].
    apply spaced_from_earlier with (lo := now_after tk); [lra|apply IH].
  - trivial.
  - apply IH.
Qed.

(** C5: in a pass of either capture loop a frame is put on the task queue
    only if the queue holds fewer than one item and at least a tenth of a
    second has passed since the last put; so, with a clock that does not run
    backwards, the frames put in any window [a <= t < a + T] of [T] seconds
    number at most [ceil (T / interval)]. *)
Theorem capture_sheds_frames :
  forall (last_time : Q) (tk : Tick Image)
         (start : Q) (ticks : list (Tick Image)) (a T : Q),
    ((exists t img,
        In (PutFrame t img)
           (pass_puts (continuous.capture_pass last_time tk))) ->
     (qsize tk < 1)%Z /\ 1 # 10 <= now_test tk - last_time) /\
    ((exists t img,
        In (PutFrame t img)
           (pass_puts (camera_scanner.capture_pass last_time tk))) ->
     (qsize tk < 1)%Z /\ 1 # 10 <= now_test tk - last_time) /\
    (Forall clock_ok ticks -> 0 <= T ->
     (Z.of_nat (count_in a (a + T)
        (frame_times (puts (continuous.capture_worker start ticks))))
      <= Qceiling (T / (1 # 10)))%Z /\
     (Z.of_nat (count_in a (a + T)
        (frame_times (puts (camera_scanner._capture_worker start ticks))))
      <= Qceiling (T / (1 # 10)))%Z).
Proof.
  intros last_time tk start ticks a T.
  split; [|split].
  - unfold continuous.capture_pass.
    destruct (frame tk) as [img|]; simpl; [|intros (? & ? & [])].
    destruct ((qsize tk <? continuous.Q_LIMIT)%Z
              && Qle_bool continuous.INTERVAL (now_test tk - last_time))%bool
      eqn:Test.
    + intros _. apply andb_true_iff in Test. destruct Test as [Hq Ht].
      apply Z.ltb_lt in Hq. apply Qle_bool_iff in Ht. split; assumption.
    + destruct (exit_key_pressed tk); simpl;
        intros (? & ? & Hin); simpl in Hin;
        repeat (destruct Hin as [Hin|Hin]; try discriminate); contradiction.
  - unfold camera_scanner.capture_pass.
    destruct (frame tk) as [img|]; simpl; [|intros (? & ? & [])].
    destruct ((qsize tk <? camera_scanner.Q_LIMIT)%Z
              && Qle_bool camera_scanner.INTERVAL (now_test tk - last_time))%bool
      eqn:Test.
    + intros _. apply andb_true_iff in Test. destruct Test as [Hq Ht].
      apply Z.ltb_lt in Hq. apply Qle_bool_iff in Ht. split; assumption.
    + destruct (exit_key_pressed tk); simpl;
        intros (? & ? & Hin); simpl in Hin;
        repeat (destruct Hin as [Hin|Hin]; try discriminate); contradiction.
  - intros Hclock HT. split.
    + apply (@spaced_window_bound continuous.INTERVAL start a T _
               continuous_INTERVAL_positive HT).
      apply continuous_loop_spaced. exact Hclock.
    + apply (@spaced_window_bound camera_scanner.INTERVAL start a T _
               camera_INTERVAL_positive HT).
      apply camera_loop_spaced. exact Hclock.
Qed.

End CaptureProperties.

(** The sample passes put two frames, at 0.120 s and at 0.240 s. *)
Example sample_frames_put :
  frame_times (puts (continuous.capture_worker 0 samples.ticks))
  = [120 # 1000; 240 # 1000]%Q.
Proof. reflexivity. Qed.

(** C5 on the sample passes and the window from 0.1 s to 0.3 s. *)
Lemma capture_sheds_frames_witness :
  Forall clock_ok samples.ticks /\
  (Z.of_nat (count_in (1 # 10) ((1 # 10) + (1 # 5))
     (frame_times (puts (continuous.capture_worker 0 samples.ticks))))
   <= 2)%Z /\
  (Z.of_nat (count_in (1 # 10) ((1 # 10) + (1 # 5))
     (frame_times (puts (camera_scanner._capture_worker 0 samples.ticks))))
   <= 2)%Z.
Proof.
  assert (Forall clock_ok samples.ticks) as Hclock.
  { repeat constructor; unfold Qle; simpl; lia. }
  split; [exact Hclock|].
  apply (proj2 (proj2 (@capture_sheds_frames nat 0 (samples.tick 60 false)
                         0 samples.ticks (1 # 10) (1 # 5))) Hclock).
  unfold Qle; simpl; lia.
Defined.

(* ================================================================== *)
(** * The termination protocol of [camera_scanner.py]                  *)
(* ================================================================== *)

Section Termination.
Context {Image Plate Scanner : Type} {plate_api : PlateApi Plate}.
Variable image_to_grayscale : Image -> Image.
Variable scan_next_frame :
  Scanner -> Image -> camera_scanner.ScanResult Plate * Scanner.

Abbreviation scan_loop :=
  (camera_scanner.scanner_loop image_to_grayscale scan_next_frame).

Lemma emitted_is_not_waiting (pre : list camera_scanner.Event)
  (r : camera_scanner.Run (Image := Image) (Plate := Plate)
         (Scanner := Scanner)) :
  (forall w out, r <> camera_scanner.Waiting w out) ->
  forall w out, camera_scanner.emitted pre r <> camera_scanner.Waiting w out.
Proof.
  intros Hr w out. destruct r as [w0 out0 unread|w0 out0|out0]; simpl;
    try discriminate.
  exfalso. exact (Hr w0 out0 eq_refl).
Qed.

(** A scan worker whose queue holds the sentinel is not left waiting. *)
Lemma sentinel_wakes_scan_worker (options : camera_scanner.Options)
  (clock : nat -> Q) (queue : list (option Image)) :
  In None queue ->
  forall k w w' out,
    scan_loop options clock queue k w <> camera_scanner.Waiting w' out.
Proof.
  induction queue as [|item rest IH]; intros Hin k w; [contradiction|].
  destruct item as [frame|]; simpl.
  - destruct Hin as [Hin|Hin]; [discriminate|].
    destruct (camera_scanner.process_frame image_to_grayscale scan_next_frame
                options w (clock k) frame) as [w1 out1|out1].
    + apply emitted_is_not_waiting. intros w' out. apply IH. exact Hin.
    + discriminate.
  - discriminate.
Qed.

(** A capture worker that left its loop put frames and then the sentinel. *)
Lemma stopped_capture_ends_in_sentinel (ticks : list (Tick Image)) :
  forall t log,
    camera_scanner.capture_loop ticks t = Stopped log ->
    exists frames_put,
      log = frames_put ++ [PutSentinel] /\
      forallb is_frame_put frames_put = true.
Proof.
  induction ticks as [|tk rest IH]; intros t log; simpl; [discriminate|].
  destruct (kill_queue_empty tk).
  - unfold camera_scanner.capture_pass.
    destruct (frame tk) as [img|]; [|discriminate].
    destruct ((qsize tk <? camera_scanner.Q_LIMIT)%Z
              && Qle_bool camera_scanner.INTERVAL (now_test tk - t))%bool;
      destruct (exit_key_pressed tk); simpl.
    + intros [= <-]. exists [PutFrame (now_put tk) img]. split; reflexivity.
    + destruct (camera_scanner.capture_loop rest (now_after tk)) as [l|l|l t']
        eqn:Rest; simpl; try discriminate.
      intros [= <-]. destruct (IH _ _ Rest) as (fs & -> & Hfs).
      exists (PutFrame (now_put tk) img :: fs). split; [reflexivity|].
      simpl. exact Hfs.
    + intros [= <-]. exists []. split; reflexivity.
    + destruct (camera_scanner.capture_loop rest t) as [l|l|l t'] eqn:Rest;
        simpl; try discriminate.
      intros [= <-]. destruct (IH _ _ Rest) as (fs & -> & Hfs).
      exists fs. split; [reflexivity|exact Hfs].
  - intros [= <-]. exists []. split; reflexivity.
Qed.

(** C6: the sentinel on the task queue is [None] and no frame put is; the
    scan worker that takes the sentinel leaves its loop with its variables as
    they were, nothing sent and the rest of the queue unread; [kill()] puts
    the sentinel on the task queue, and makes the kill queue non-empty, on
    which the capture worker leaves its loop; a capture worker that left its
    loop, on the kill queue or on the exit key, has put the sentinel last; and
    a scan worker whose queue holds the sentinel is never left waiting on
    the queue. *)
Theorem sentinel_terminates_scan_worker :
  forall (options : camera_scanner.Options) (clock : nat -> Q) (k : nat)
         (w : camera_scanner.Vars (Scanner := Scanner))
         (self : camera_scanner.Queues Image)
         (start : Q) (ticks : list (Tick Image)) (tk : Tick Image)
         (queue unread : list (option Image)),
    (payload (@PutSentinel Image) = None /\
     forall (t : Q) (img : Image), payload (PutFrame t img) <> None) /\
    scan_loop options clock (None :: unread) k w
      = camera_scanner.Exited w [] unread /\
    (camera_scanner.task_queue (camera_scanner.kill self)
       = camera_scanner.task_queue self ++ [None] /\
     camera_scanner.empty
       (camera_scanner.kill_queue (camera_scanner.kill self)) = false) /\
    (kill_queue_empty tk
       = camera_scanner.empty
           (camera_scanner.kill_queue (camera_scanner.kill self)) ->
     camera_scanner._capture_worker start (tk :: ticks)
       = Stopped [PutSentinel]) /\
    (frame tk <> None -> exit_key_pressed tk = true ->
     exists log,
       camera_scanner._capture_worker start (tk :: ticks)
         = Stopped (log ++ [PutSentinel])) /\
    (forall log,
       camera_scanner._capture_worker start ticks = Stopped log ->
       exists frames_put,
         log = frames_put ++ [PutSentinel] /\
         forallb is_frame_put frames_put = true) /\
    (In None queue ->
     forall w' out,
       scan_loop options clock queue k w <> camera_scanner.Waiting w' out).
Proof.
  intros options clock k w self start ticks tk queue unread.
  assert (camera_scanner.empty
            (camera_scanner.kill_queue (camera_scanner.kill self)) = false)
    as Hkilled.
  { unfold camera_scanner.kill, camera_scanner.put; simpl.
    destruct (camera_scanner.kill_queue self); reflexivity. }
  repeat split.
  - discriminate.
  - exact Hkilled.
  - rewrite Hkilled. unfold camera_scanner._capture_worker. simpl.
    intros ->. reflexivity.
  - unfold camera_scanner._capture_worker. simpl. intros Hframe Hkey.
    destruct (kill_queue_empty tk); [|exists []; reflexivity].
    unfold camera_scanner.capture_pass.
    destruct (frame tk) as [img|]; [|contradiction].
    rewrite Hkey.
    destruct ((qsize tk <? camera_scanner.Q_LIMIT)%Z
              && Qle_bool camera_scanner.INTERVAL (now_test tk - start))%bool;
      [exists [PutFrame (now_put tk) img]|exists []]; reflexivity.
  - apply stopped_capture_ends_in_sentinel.
  - intros Hin. apply sentinel_wakes_scan_worker. exact Hin.
Qed.

End Termination.

(** C6 on the sample scanner: the capture worker of a killed scanner stops
    with the sentinel put, so does one whose user presses the exit key, and
    the scan worker leaves its loop at the sentinel with frame 2 unread. *)
Lemma sentinel_terminates_scan_worker_witness :
  camera_scanner._capture_worker 0 (samples.killed_tick :: samples.ticks)
    = Stopped [PutSentinel] /\
  (exists log,
     camera_scanner._capture_worker 0 (samples.tick 300 true :: samples.ticks)
       = Stopped (log ++ [PutSentinel])) /\
  (forall w' out,
     samples.camera_loop [Some 1%nat; None; Some 2%nat] 0%nat
       samples.camera_vars
     <> camera_scanner.Waiting w' out).
Proof.
  pose proof (sentinel_terminates_scan_worker
                (plate_api := samples.plate_api)
                samples.plain samples.scan_next_frame
                samples.options (fun _ => 0) 0%nat samples.camera_vars
                (camera_scanner.mkQueues [Some 1%nat] [])
                0 samples.ticks samples.killed_tick
                [Some 1%nat; None; Some 2%nat] [])
    as (_ & _ & _ & Hkill & _ & _ & Hwake).
  pose proof (sentinel_terminates_scan_worker
                (plate_api := samples.plate_api)
                samples.plain samples.scan_next_frame
                samples.options (fun _ => 0) 0%nat samples.camera_vars
                (camera_scanner.mkQueues [Some 1%nat] [])
                0 samples.ticks (samples.tick 300 true)
                [Some 1%nat; None; Some 2%nat] [])
    as (_ & _ & _ & _ & Hkey & _ & _).
  split; [exact (Hkill eq_refl)|].
  split; [apply Hkey; [discriminate|reflexivity]|].
  apply Hwake. right. left. reflexivity.
Defined.

(* ================================================================== *)
(** * Valid slots are not decoded again                                *)
(* ================================================================== *)

Section MergeProperties.
Import slot.
Context {Barcode : Type} {api : BarcodeApi Barcode} {Image : Type}.
Variable slot_count : nat.
Variable align : Image -> option (nat -> Circle).
Variable decode : Image -> Circle -> merge_engine.Decoded (Barcode := Barcode).
Variable to_grayscale : Image -> Image.
Variable draw_on_image : merge_engine.Plate (Barcode := Barcode) -> Image -> Image.
Variable crop_image : merge_engine.Plate (Barcode := Barcode) -> Image -> Image.

Abbreviation engine_frame :=
  (merge_engine.process_frame slot_count align decode
     to_grayscale draw_on_image crop_image).
Abbreviation engine_loop :=
  (merge_engine.scanner_loop slot_count align decode
     to_grayscale draw_on_image crop_image).
Abbreviation engine_calls :=
  (merge_engine.decode_calls slot_count align decode
     to_grayscale draw_on_image crop_image).

Lemma valid_with_is_VALID (b : Barcode) (s : Slot Barcode) :
  merge_engine.valid_with b s -> merge_engine.is_VALID s = true.
Proof.
  intros [_ Hst]. unfold merge_engine.is_VALID. rewrite Hst. reflexivity.
Qed.

(** [state()] reads the empty flag and the stored barcode only. *)
Lemma state_reads_flag_and_barcode (s s' : Slot Barcode) :
  _empty s = _empty s' -> _barcode s = _barcode s' ->
  returns state s = returns state s'.
Proof.
  destruct s as [n bd pos bc e tf fl], s' as [n' bd' pos' bc' e' tf' fl'].
  simpl. intros <- <-. run_method. split_tests; reflexivity.
Qed.

Lemma valid_with_new_frame (b : Barcode) (s : Slot Barcode) :
  merge_engine.valid_with b s -> merge_engine.valid_with b (after new_frame s).
Proof.
  destruct s as [n bd pos bc e tf fl]. intros [Hb Hst].
  split; [exact Hb|].
  rewrite <- Hst. apply state_reads_flag_and_barcode; reflexivity.
Qed.

Lemma valid_with_set_bounds (b : Barcode) (region : option Circle)
  (s : Slot Barcode) :
  merge_engine.valid_with b s -> merge_engine.valid_with b (after (set_bounds region) s).
Proof.
  destruct s as [n bd pos bc e tf fl]. intros [Hb Hst].
  split; [exact Hb|].
  rewrite <- Hst. apply state_reads_flag_and_barcode; reflexivity.
Qed.

(** The decode calls of a scan from index [i] on are for indices from [i]. *)
Lemma scan_slots_calls_from (frame : Image) (regions : nat -> Circle)
  (ss : list (Slot Barcode)) :
  forall i c,
    In c (snd (merge_engine.scan_slots decode frame regions i ss)) ->
    (i <= c)%nat.
Proof.
  induction ss as [|s rest IH]; intros i c; simpl; [contradiction|].
  destruct (merge_engine.is_VALID _);
    destruct (merge_engine.scan_slots decode frame regions (S i) rest)
      as [rest' calls] eqn:Rest; simpl; intros Hin.
  - specialize (IH (S i) c). rewrite Rest in IH. specialize (IH Hin). lia.
  - destruct Hin as [<-|Hin]; [lia|].
    specialize (IH (S i) c). rewrite Rest in IH. specialize (IH Hin). lia.
Qed.

(** A slot that is Valid keeps its barcode through the scan of a frame and is
    not decoded. *)
Lemma scan_slots_skips_valid (frame : Image) (regions : nat -> Circle)
  (b : Barcode) (ss : list (Slot Barcode)) :
  forall i j s,
    nth_error ss j = Some s ->
    merge_engine.valid_with b s ->
    (exists s',
       nth_error (fst (merge_engine.scan_slots decode frame regions i ss)) j
         = Some s' /\ merge_engine.valid_with b s') /\
    ~ In (i + j)%nat (snd (merge_engine.scan_slots decode frame regions i ss)).
Proof.
  induction ss as [|s0 rest IH]; intros i j s Hnth Hvalid.
  - destruct j; discriminate.
  - simpl.
    pose proof (scan_slots_calls_from frame regions rest (S i)) as Hfrom.
    destruct j as [|j]; simpl in Hnth.
    + injection Hnth as ->.
      pose proof (valid_with_set_bounds (Some (regions i)) Hvalid) as Hb.
      rewrite (valid_with_is_VALID Hb).
      destruct (merge_engine.scan_slots decode frame regions (S i) rest)
        as [rest' calls]; simpl in *.
      split.
      * exists (after (set_bounds (Some (regions i))) s). split; [reflexivity|exact Hb].
      * intros Hin. specialize (Hfrom _ Hin). lia.
    + destruct (IH (S i) j s Hnth Hvalid) as [Hkeep Hskip].
      destruct (merge_engine.scan_slots decode frame regions (S i) rest)
        as [rest' calls]; simpl in *.
      destruct (merge_engine.is_VALID _); simpl.
      * split; [exact Hkeep|].
        replace (i + S j)%nat with (S (i + j)) by lia. exact Hskip.
      * split; [exact Hkeep|].
        replace (i + S j)%nat with (S (i + j)) by lia.
        intros [Heq|Hin]; [lia|exact (Hskip Hin)].
Qed.

(** The merge of a frame into a plate whose slot [j] is Valid. *)
Lemma merge_skips_valid (frame : Image)
  (p : merge_engine.Plate (Barcode := Barcode)) (j : nat) (b : Barcode)
  (s : Slot Barcode) :
  nth_error (merge_engine.slots p) j = Some s ->
  merge_engine.valid_with b s ->
  (exists s',
     nth_error
       (merge_engine.slots
          (fst (merge_engine.merge slot_count align decode (Some p) frame))) j
       = Some s' /\ merge_engine.valid_with b s') /\
  ~ In j (snd (merge_engine.merge slot_count align decode (Some p) frame)).
Proof.
  intros Hnth Hvalid. unfold merge_engine.merge.
  destruct (align frame) as [regions|]; simpl.
  - assert (nth_error (List.map (after new_frame) (merge_engine.slots p)) j
            = Some (after new_frame s)) as Hnth'
      by (apply map_nth_error; exact Hnth).
    pose proof (scan_slots_skips_valid frame regions
                  (List.map (after new_frame) (merge_engine.slots p))
                  0 j Hnth' (valid_with_new_frame Hvalid)) as [Hkeep Hskip].
    destruct (merge_engine.scan_slots decode frame regions 0
                (List.map (after new_frame) (merge_engine.slots p)))
      as [ss calls]; simpl in *.
    split; assumption.
  - split; [exists s; split; assumption|intros []].
Qed.

Lemma final_vars_emitted (pre : list continuous.Event)
  (r : continuous.Run (Image := Image)
         (Plate := merge_engine.Plate (Barcode := Barcode))) :
  merge_engine.final_vars (continuous.emitted pre r)
  = merge_engine.final_vars r.
Proof. destruct r; reflexivity. Qed.

(** One frame: a slot that is Valid in the last plate is not decoded, and is
    Valid with the same barcode in the last plate after the frame. *)
Lemma frame_skips_valid (v : continuous.Vars) (frame : Image) (i : nat)
  (b : Barcode) :
  merge_engine.holds_valid v i b ->
  ~ In i (merge_engine.calls_for slot_count align decode to_grayscale v frame)
  /\ forall v' out,
       engine_frame v frame = continuous.Done v' out ->
       merge_engine.holds_valid v' i b.
Proof.
  intros (p & s & Hlast & Hnth & Hvalid).
  destruct (merge_skips_valid (to_grayscale frame) p i Hnth Hvalid)
    as [(s' & Hnth' & Hvalid') Hskip].
  split.
  - unfold merge_engine.calls_for. rewrite Hlast. exact Hskip.
  - intros v' out.
    assert (merge_engine.holds_valid v i b) as Hold
      by (exists p, s; split; [|split]; assumption).
    unfold merge_engine.process_frame, continuous.process_frame,
      continuous.scan, merge_engine.ScanImageContinuous.
    rewrite Hlast.
    set (plate := fst (merge_engine.merge slot_count align decode (Some p)
                         (to_grayscale frame))) in *.
    assert (forall full contains,
              merge_engine.holds_valid
                (continuous.mkVars (Some plate) full contains) i b) as Hnew
      by (intros full contains; exists plate, s'; split; [|split];
          [reflexivity|assumption|assumption]).
    assert (forall contains,
              merge_engine.holds_valid
                (continuous.mkVars (continuous.last_plate v)
                   (continuous.last_full_plate v) contains) i b) as Hsame
      by (intros contains; exists p, s; split; [|split]; assumption).
    rewrite Hlast in Hsame.
    cbv zeta.
    repeat match goal with
           | |- context [if ?c then _ else _] => destruct c
           | |- context [match ?c with
                         | python.Returned _ => _
                         | python.Raised _ => _
                         end] =>
               destruct c
           end;
      intros [= <- <-] || discriminate; auto.
Qed.

(** C1: once a slot of the worker's last plate is Valid, the frames that
    follow, however many, never invoke the decode capability for that slot
    index, and the slot stays Valid with the barcode it holds: the scan
    worker of [continuous.py] hands its last plate to the continuous scan,
    and the merge does not decode a slot that is Valid. *)
Theorem valid_slot_is_never_decoded_again :
  forall (queue : list (option Image)) (v : continuous.Vars) (i : nat)
         (b : Barcode),
    merge_engine.holds_valid v i b ->
    ~ In i (engine_calls queue v) /\
    forall v', merge_engine.final_vars (engine_loop queue v) = Some v' ->
               merge_engine.holds_valid v' i b.
Proof.
  induction queue as [|item rest IH]; intros v i b Hold.
  - split; [intros []|]. simpl. intros v' [= <-]. exact Hold.
  - destruct item as [frame|].
    + destruct (frame_skips_valid frame Hold) as [Hskip Hnext].
      simpl. unfold merge_engine.scanner_loop in *. simpl.
      fold (engine_frame v frame).
      destruct (engine_frame v frame) as [v1 out1|out1] eqn:Step.
      * destruct (IH v1 i b (Hnext v1 out1 eq_refl)) as [Hrest Hfinal].
        split.
        -- intros Hin. apply in_app_or in Hin. tauto.
        -- intros v'. rewrite final_vars_emitted. apply Hfinal.
      * split; [|discriminate].
        intros Hin. apply in_app_or in Hin. destruct Hin as [Hin|[]].
        exact (Hskip Hin).
    + split; [intros []|]. simpl. intros v' [= <-]. exact Hold.
Qed.

End MergeProperties.

(** A session on the sample frames: frame 1 decodes the three slots and
    reads slot 0; frame 2 decodes slots 1 and 2 only and reads them; frame 0
    is not aligned and frame 3 finds every slot Valid, so neither decodes. *)
Example sample_session_decodes :
  samples.decode_calls [Some 1; Some 2; Some 0; Some 3; None]%nat
    continuous.start
  = [0; 1; 2; 1; 2]%nat.
Proof. reflexivity. Qed.

(** C1 on the sample session after frame 1, for slot 0. *)
Lemma valid_slot_is_never_decoded_again_witness :
  merge_engine.holds_valid samples.after_frame_1 0 samples.tube /\
  ~ In 0%nat
      (samples.decode_calls [Some 2; Some 0; Some 3; None]%nat
         samples.after_frame_1).
Proof.
  assert (merge_engine.holds_valid samples.after_frame_1 0 samples.tube)
    as Hold.
  { eexists. eexists. split; [reflexivity|].
    split; [reflexivity|]. split; reflexivity. }
  split; [exact Hold|].
  apply (valid_slot_is_never_decoded_again 3 samples.align samples.decode
           samples.plain samples.untouched samples.untouched
           [Some 2; Some 0; Some 3; None]%nat Hold).
Defined.

(* ================================================================== *)
(** * More on [slot.py]: what sequences of calls keep                  *)
(* ================================================================== *)

Section SlotCallProperties.
Import slot slot_calls.
Context {Barcode : Type} {api : BarcodeApi Barcode}.

Ltac run_call :=
  unfold perform; run_method.

Lemma perform_all_app (cs ds : list (Call Barcode)) (s : Slot Barcode) :
  perform_all (cs ++ ds) s = perform_all ds (perform_all cs s).
Proof.
  revert s. induction cs as [|c cs IH]; intros s; simpl; [reflexivity|].
  apply IH.
Qed.

Lemma perform_keeps_empty_without_barcode (c : Call Barcode)
  (s : Slot Barcode) :
  (_empty s = true -> _barcode s = None) ->
  _empty (after (perform c) s) = true ->
  _barcode (after (perform c) s) = None.
Proof.
  destruct s as [n bd pos bc e tf fl].
  destruct c as [| b | coord | [b|] | |]; run_call; auto; discriminate.
Qed.

(** A slot made by [Slot(number)] and changed through its methods only never
    has the empty flag set while a barcode object is stored. *)
Theorem empty_flag_excludes_stored_barcode :
  forall (cs : list (Call Barcode)) (number : Z),
    _empty (perform_all cs (__init__ number)) = true ->
    _barcode (perform_all cs (__init__ number)) = None.
Proof.
  intros cs number.
  assert (forall s : Slot Barcode,
            (_empty s = true -> _barcode s = None) ->
            _empty (perform_all cs s) = true ->
            _barcode (perform_all cs s) = None) as Hinv.
  { induction cs as [|c cs IH]; intros s Hs; simpl; [exact Hs|].
    apply IH. apply perform_keeps_empty_without_barcode. exact Hs. }
  apply Hinv. simpl. discriminate.
Qed.

Lemma perform_counts_frame (c : Call Barcode) (s : Slot Barcode) :
  _total_frames (after (perform c) s)
  = (_total_frames s + (if is_new_frame c then 1 else 0))%Z /\
  _number (after (perform c) s) = _number s.
Proof.
  destruct s as [n bd pos bc e tf fl].
  destruct c as [| b | coord | [b|] | |]; run_call; split;
    try reflexivity; lia.
Qed.

(** Whatever calls are made on a slot, its number stays the one it was made
    with and its frame counter grows by the number of [new_frame] calls. *)
Theorem calls_keep_number_and_count_frames :
  forall (cs : list (Call Barcode)) (s : Slot Barcode),
    _number (perform_all cs s) = _number s /\
    _total_frames (perform_all cs s)
    = (_total_frames s
       + Z.of_nat (List.length (List.filter is_new_frame cs)))%Z.
Proof.
  induction cs as [|c cs IH]; intros s; simpl.
  - split; [reflexivity|lia].
  - destruct (IH (after (perform c) s)) as [Hn Hf].
    destruct (perform_counts_frame c s) as [Hf1 Hn1].
    rewrite Hn, Hf, Hn1, Hf1.
    split; [reflexivity|].
    destruct (is_new_frame c); simpl List.length; lia.
Qed.

Lemma flag_stays_set (cs : list (Call Barcode)) :
  forallb (fun c => negb (is_new_frame c)) cs = true ->
  forall s : Slot Barcode,
    _barcode_set_this_frame s = true ->
    _barcode_set_this_frame (perform_all cs s) = true.
Proof.
  induction cs as [|c cs IH]; intros Hno s Hs; simpl; [exact Hs|].
  simpl in Hno. apply andb_true_iff in Hno. destruct Hno as [Hc Hno].
  apply IH; [exact Hno|].
  destruct s as [n bd pos bc e tf fl].
  destruct c as [| b | coord | [b|] | |]; run_call; auto; discriminate.
Qed.

Lemma flag_stays_clear (cs : list (Call Barcode)) :
  forallb (fun c => negb (stores_barcode c)) cs = true ->
  forall s : Slot Barcode,
    _barcode_set_this_frame s = false ->
    _barcode_set_this_frame (perform_all cs s) = false.
Proof.
  induction cs as [|c cs IH]; intros Hno s Hs; simpl; [exact Hs|].
  simpl in Hno. apply andb_true_iff in Hno. destruct Hno as [Hc Hno].
  apply IH; [exact Hno|].
  destruct s as [n bd pos bc e tf fl].
  destruct c as [| b | coord | [b|] | |]; run_call; auto; discriminate.
Qed.

(** [barcode_this_frame()] says whether a barcode object was set since the
    last [new_frame()]: it is true after a [set_barcode] with a barcode that
    no [new_frame] follows, false after a [new_frame] that no such
    [set_barcode] follows; [set_empty], [set_no_result], [set_barcode(None)]
    and the geometry setters leave it as it is. *)
Theorem flag_tells_barcode_set_since_new_frame :
  forall (before later : list (Call Barcode)) (c : Call Barcode)
         (s : Slot Barcode),
    (stores_barcode c = true ->
     forallb (fun d => negb (is_new_frame d)) later = true ->
     returns barcode_this_frame (perform_all (before ++ c :: later) s) = true)
    /\
    (is_new_frame c = true ->
     forallb (fun d => negb (stores_barcode d)) later = true ->
     returns barcode_this_frame (perform_all (before ++ c :: later) s) = false)
    /\
    (forallb (fun d => negb (is_new_frame d) && negb (stores_barcode d)) later
       = true ->
     returns barcode_this_frame (perform_all later s)
     = returns barcode_this_frame s).
Proof.
  intros before later c s.
  unfold returns, barcode_this_frame, attr; simpl.
  rewrite perform_all_app. simpl.
  split; [|split].
  - intros Hc Hlater. apply flag_stays_set; [exact Hlater|].
    destruct (perform_all before s) as [n bd pos bc e tf fl].
    destruct c as [| b | coord | [b|] | |]; try discriminate. reflexivity.
  - intros Hc Hlater. apply flag_stays_clear; [exact Hlater|].
    destruct (perform_all before s) as [n bd pos bc e tf fl].
    destruct c as [| b | coord | [b|] | |]; try discriminate. reflexivity.
  - intros Hlater.
    assert (forallb (fun d : Call Barcode => negb (is_new_frame d)) later = true
            /\ forallb (fun d : Call Barcode => negb (stores_barcode d)) later
               = true) as [Hnf Hst].
    { clear -Hlater. induction later as [|d later IH]; simpl in *; [auto|].
      apply andb_true_iff in Hlater. destruct Hlater as [Hd Hlater].
      apply andb_true_iff in Hd. destruct Hd as [Hd1 Hd2].
      destruct (IH Hlater) as [-> ->]. rewrite Hd1, Hd2. auto. }
    destruct (_barcode_set_this_frame s) eqn:Flag.
    + apply flag_stays_set; assumption.
    + apply flag_stays_clear; assumption.
Qed.

(** [set_barcode] with a barcode object makes the slot hold it, whatever the
    slot was before, an empty one too: the status is the one the barcode
    gives, the data is the barcode's, the per-frame flag is set and the slot
    contains a barcode exactly when the barcode is unreadable or valid. *)
Theorem set_barcode_overrides_status :
  forall (s : Slot Barcode) (b : Barcode),
    let s' := after (set_barcode (Some b)) s in
    returns state s'
    = (if is_unreadable b then UNREADABLE
       else if is_valid b then VALID else NO_RESULT) /\
    returns barcode_data s' = data b /\
    returns barcode_this_frame s' = true /\
    returns contains_barcode s' = (is_unreadable b || is_valid b)%bool /\
    _empty s' = false.
Proof.
  intros [n bd pos bc e tf fl] b. cbv zeta.
  unfold contains_barcode. run_method.
  destruct (is_unreadable b), (is_valid b); simpl; repeat split.
Qed.

(** [set_empty] and [set_no_result] drop the stored barcode, whatever the
    slot held: the status is Empty, or NoResult, the data is the matching
    symbol and the slot contains no barcode; neither call clears the
    per-frame flag. *)
Theorem set_empty_and_set_no_result_drop_barcode :
  forall s : Slot Barcode,
    (returns state (after set_empty s) = EMPTY /\
     returns barcode_data (after set_empty s) = EMPTY_SLOT_SYMBOL /\
     returns contains_barcode (after set_empty s) = false /\
     returns barcode_this_frame (after set_empty s)
     = returns barcode_this_frame s) /\
    (returns state (after set_no_result s) = NO_RESULT /\
     returns barcode_data (after set_no_result s) = NOT_FOUND_SLOT_SYMBOL /\
     returns contains_barcode (after set_no_result s) = false /\
     returns barcode_this_frame (after set_no_result s)
     = returns barcode_this_frame s).
Proof.
  intros [n bd pos bc e tf fl].
  unfold contains_barcode. run_method. repeat split.
Qed.

(** A slot that contains a barcode stores a barcode object, has the empty
    flag clear and gives that barcode's data; [contains_barcode()] is true
    exactly for the statuses Unreadable and Valid and assigns nothing. *)
Theorem contains_barcode_means_stored :
  forall s : Slot Barcode,
    after contains_barcode s = s /\
    (returns contains_barcode s = true <->
     returns state s = UNREADABLE \/ returns state s = VALID) /\
    (returns contains_barcode s = true ->
     exists b, _barcode s = Some b /\ _empty s = false /\
               returns barcode_data s = data b).
Proof.
  intros [n bd pos bc e tf fl].
  unfold contains_barcode. run_method.
  destruct e; simpl.
  - repeat split; try discriminate. intros [?|?]; discriminate.
  - destruct bc as [b|]; simpl.
    + destruct (is_unreadable b); simpl;
        [|destruct (is_valid b); simpl];
        repeat split; auto; try discriminate;
        try (intros [?|?]; discriminate);
        try (intros _; exists b; repeat split).
    + repeat split; try discriminate. intros [?|?]; discriminate.
Qed.

(** The geometry setters store what they are given, do not touch each
    other's attribute nor the status, the data, the per-frame flag or the
    frame counter, and commute. *)
Theorem geometry_setters_are_independent :
  forall (s : Slot Barcode) (b : option Circle) (coord : option Point),
    returns bounds (after (set_bounds b) s) = b /\
    returns barcode_position (after (set_barcode_position coord) s) = coord /\
    returns barcode_position (after (set_bounds b) s)
    = returns barcode_position s /\
    returns bounds (after (set_barcode_position coord) s) = returns bounds s /\
    returns state (after (set_bounds b) s) = returns state s /\
    returns state (after (set_barcode_position coord) s) = returns state s /\
    returns barcode_data (after (set_bounds b) s) = returns barcode_data s /\
    returns barcode_data (after (set_barcode_position coord) s)
    = returns barcode_data s /\
    after (set_bounds b) (after (set_barcode_position coord) s)
    = after (set_barcode_position coord) (after (set_bounds b) s).
Proof.
  intros [n bd pos bc e tf fl] b coord.
  unfold bounds, barcode_position, set_barcode_position. run_method.
  repeat split; destruct e; simpl; try reflexivity;
    destruct bc as [bc0|]; simpl; try reflexivity;
    destruct (is_unreadable bc0); simpl; try reflexivity;
    destruct (is_valid bc0); reflexivity.
Qed.

End SlotCallProperties.

(* ================================================================== *)
(** * More on the beep frequency                                       *)
(* ================================================================== *)

(** In [continuous.py] the floor-divided fraction is 1 when no barcode is
    valid and 0 otherwise. *)
Lemma continuous_beep_two_values (n v : Z) :
  (0 < n)%Z -> (0 <= v <= n)%Z ->
  continuous.beep_frequency n v
  = python.Returned (if (v =? 0)%Z then 10037 else 37)%Z.
Proof.
  intros Hn Hv. unfold continuous.beep_frequency, python.floor_div.
  destruct (n =? 0)%Z eqn:Zero; [apply Z.eqb_eq in Zero; lia|].
  destruct (v =? 0)%Z eqn:None_valid.
  - apply Z.eqb_eq in None_valid. subst v.
    rewrite Z.sub_0_r, Z.div_same by lia. reflexivity.
  - apply Z.eqb_neq in None_valid.
    rewrite Z.div_small by lia. reflexivity.
Qed.

Lemma camera_beep_table :
  forallb (fun n => forallb (fun v => runs.camera_beep_in_range (Z.of_nat n)
                                         (Z.of_nat v))
                            (seq 0 (S n)))
          (seq 1 128) = true.
Proof. vm_compute. reflexivity. Qed.

(** For a plate with slots and a count of valid barcodes within the number
    of slots, both beeps have a frequency that [winsound.Beep] accepts.  In
    [continuous.py] it is 10037 Hz when no barcode is valid and 37 Hz as soon
    as one is.  In [camera_scanner.py], for plates of up to 128 slots, it is
    from 37 to 10037 Hz: the floor of [10000 * (n - v) / n] plus 37, or, by
    the rounding of doubles, one below it. *)
Theorem beep_frequency_range :
  forall num_slots num_valid : Z,
    (0 < num_slots)%Z ->
    (0 <= num_valid <= num_slots)%Z ->
    (exists f,
       continuous.beep_frequency num_slots num_valid = python.Returned f /\
       f = (if (num_valid =? 0)%Z then 10037 else 37)%Z /\
       winsound.Beep_sounds f = true) /\
    ((num_slots <= 128)%Z ->
     exists f,
       camera_scanner.beep_frequency num_slots num_valid = python.Returned f /\
       (37 <= f <= 10037)%Z /\
       (10000 * (num_slots - num_valid) / num_slots + 36 <= f
        <= 10000 * (num_slots - num_valid) / num_slots + 37)%Z /\
       winsound.Beep_sounds f = true).
Proof.
  intros n v Hn Hv. split.
  - eexists. split; [apply continuous_beep_two_values; assumption|].
    split; [reflexivity|]. destruct (v =? 0)%Z; reflexivity.
  - intros Hsmall.
    pose proof camera_beep_table as Htable.
    rewrite forallb_forall in Htable.
    specialize (Htable (Z.to_nat n)).
    rewrite forallb_forall in Htable.
    assert (In (Z.to_nat n) (seq 1 128)) as Hin by (apply in_seq; lia).
    assert (In (Z.to_nat v) (seq 0 (S (Z.to_nat n)))) as Hiv
      by (apply in_seq; lia).
    specialize (Htable Hin (Z.to_nat v) Hiv).
    rewrite !Z2Nat.id in Htable by lia.
    unfold runs.camera_beep_in_range in Htable.
    destruct (camera_scanner.beep_frequency n v) as [f|e]; [|discriminate].
    rewrite !andb_true_iff, !Z.leb_le in Htable.
    exists f. split; [reflexivity|]. split; [lia|]. split; [lia|].
    unfold winsound.Beep_sounds. rewrite andb_true_iff, !Z.leb_le. lia.
Qed.

(** Both frequency computations fail on the division, with
    [ZeroDivisionError], exactly for a plate with no slots. *)
Theorem beep_fails_only_without_slots :
  forall num_slots num_valid : Z,
    (continuous.beep_frequency num_slots num_valid
     = python.Raised python.ZeroDivisionError
     <-> num_slots = 0%Z) /\
    (camera_scanner.beep_frequency num_slots num_valid
     = python.Raised python.ZeroDivisionError
     <-> num_slots = 0%Z).
Proof.
  intros n v.
  unfold continuous.beep_frequency, camera_scanner.beep_frequency,
    python.floor_div, python.true_div.
  destruct (n =? 0)%Z eqn:E.
  - apply Z.eqb_eq in E. split; split; auto.
  - apply Z.eqb_neq in E. split; split; intros H; try contradiction;
      try discriminate H.
    exfalso.
    destruct (SFdiv python.prec python.emax (python.exact_int (n - v))
                (python.exact_int n)); try discriminate H;
      match type of H with
      | python.int ?x = _ => destruct x; discriminate H
      end.
Qed.

(* ================================================================== *)
(** * More on the capture workers                                      *)
(* ================================================================== *)

Section CaptureLoopProperties.
Context {Image : Type}.

(** Split a pass of a capture loop on the frame, the enqueue test and the
    exit key. *)
Ltac split_capture_pass :=
  match goal with
  | |- context [frame ?tk] => destruct (frame tk) as [img|] eqn:Frame
  end;
  simpl;
  try match goal with
      | |- context [(?q && ?c)%bool] => destruct (q && c)%bool eqn:Test
      end;
  try match goal with
      | |- context [exit_key_pressed ?tk] =>
          destruct (exit_key_pressed tk) eqn:Key
      end;
  simpl.

Ltac split_rest :=
  match goal with
  | |- context [continuous.capture_loop ?r ?t] =>
      destruct (continuous.capture_loop r t) as [l|l|l t'] eqn:Rest
  | |- context [camera_scanner.capture_loop ?r ?t] =>
      destruct (camera_scanner.capture_loop r t) as [l|l|l t'] eqn:Rest
  end;
  simpl.

(** The capture worker of [continuous.py] leaves its loop only in a pass in
    which the exit key is pressed; it has then put frames only, and the
    sentinel last. *)
Theorem continuous_capture_stops_on_exit_key :
  forall (start : Q) (ticks : list (Tick Image)) (log : list (TaskPut Image)),
    continuous.capture_worker start ticks = Stopped log ->
    (exists tk, In tk ticks /\ exit_key_pressed tk = true) /\
    exists frames_put,
      log = frames_put ++ [PutSentinel] /\
      forallb is_frame_put frames_put = true.
Proof.
  unfold continuous.capture_worker. intros start ticks. revert start.
  induction ticks as [|tk rest IH]; intros t log; simpl; [discriminate|].
  unfold continuous.capture_pass.
  split_capture_pass; try discriminate; try split_rest; try discriminate;
    intros [= <-].
  - split; [exists tk; auto|].
    exists [PutFrame (now_put tk) img]. split; reflexivity.
  - destruct (IH _ _ Rest) as [(tk' & Hin & Hkey) (fs & -> & Hfs)].
    split; [exists tk'; auto|].
    exists (PutFrame (now_put tk) img :: fs). split; [reflexivity|exact Hfs].
  - split; [exists tk; auto|]. exists []. split; reflexivity.
  - destruct (IH _ _ Rest) as [(tk' & Hin & Hkey) (fs & -> & Hfs)].
    split; [exists tk'; auto|]. exists fs. split; [reflexivity|exact Hfs].
Qed.

(** The capture worker of [camera_scanner.py] leaves its loop only in a pass
    that finds the kill queue non-empty or in which the exit key is
    pressed. *)
Theorem camera_capture_stops_on_kill_or_exit_key :
  forall (start : Q) (ticks : list (Tick Image)) (log : list (TaskPut Image)),
    camera_scanner._capture_worker start ticks = Stopped log ->
    exists tk,
      In tk ticks /\
      (kill_queue_empty tk = false \/ exit_key_pressed tk = true).
Proof.
  unfold camera_scanner._capture_worker. intros start ticks. revert start.
  induction ticks as [|tk rest IH]; intros t log; simpl; [discriminate|].
  destruct (kill_queue_empty tk) eqn:Kill; [|intros _; exists tk; auto].
  unfold camera_scanner.capture_pass.
  split_capture_pass; try discriminate; try split_rest; try discriminate;
    intros [= <-];
    try (exists tk; auto; fail);
    destruct (IH _ _ Rest) as (tk' & Hin & Hwhy); exists tk'; auto.
Qed.

(** Either capture worker puts at most one frame in a pass, and none in a
    pass that finds an item on the task queue: while the queue is never
    found empty, no frame is put at all. *)
Theorem capture_puts_no_frame_on_busy_queue :
  forall (start : Q) (ticks : list (Tick Image)),
    (List.length (frame_times (puts (continuous.capture_worker start ticks)))
     <= List.length ticks)%nat /\
    (List.length
       (frame_times (puts (camera_scanner._capture_worker start ticks)))
     <= List.length ticks)%nat /\
    (Forall (fun tk => (1 <= qsize tk)%Z) ticks ->
     frame_times (puts (continuous.capture_worker start ticks)) = [] /\
     frame_times (puts (camera_scanner._capture_worker start ticks)) = []).
Proof.
  unfold continuous.capture_worker, camera_scanner._capture_worker.
  intros start ticks. split; [|split].
  - revert start. induction ticks as [|tk rest IH]; intros t; simpl; [lia|].
    unfold continuous.capture_pass.
    pose proof (IH (now_after tk)) as IHput. pose proof (IH t) as IHnone.
    split_capture_pass; rewrite ?puts_earlier; simpl; lia.
  - revert start. induction ticks as [|tk rest IH]; intros t; simpl; [lia|].
    destruct (kill_queue_empty tk); simpl; [|lia].
    unfold camera_scanner.capture_pass.
    pose proof (IH (now_after tk)) as IHput. pose proof (IH t) as IHnone.
    split_capture_pass; rewrite ?puts_earlier; simpl; lia.
  - intros Hbusy. revert start.
    induction Hbusy as [|tk rest Hq _ IH]; intros t; simpl; [auto|].
    assert ((qsize tk <? 1)%Z = false) as Hfull by (apply Z.ltb_ge; exact Hq).
    unfold continuous.capture_pass, camera_scanner.capture_pass,
      continuous.Q_LIMIT, camera_scanner.Q_LIMIT.
    rewrite Hfull. simpl.
    destruct (IH t) as [IHc IHk].
    destruct (frame tk) as [img|]; simpl;
      destruct (kill_queue_empty tk); simpl; auto;
      destruct (exit_key_pressed tk); simpl; rewrite ?puts_earlier; simpl;
      auto.
Qed.

End CaptureLoopProperties.

(* ================================================================== *)
(** * More on the scan worker of [continuous.py]                       *)
(* ================================================================== *)

Section ContinuousScanProperties.
Context {Image Plate : Type} {plate_api : PlateApi Plate}.
Variable to_grayscale : Image -> Image.
Variable draw_on_image : Plate -> Image -> Image.
Variable crop_image : Plate -> Image -> Image.
Variable ScanImage : Image -> Plate.
Variable ScanImageContinuous : Image -> Plate -> Plate * bool.

Abbreviation scan_of :=
  (continuous.scan ScanImage ScanImageContinuous).
Abbreviation frame_step :=
  (continuous.process_frame to_grayscale draw_on_image crop_image
     ScanImage ScanImageContinuous).
Abbreviation frames_loop :=
  (continuous.scanner_loop to_grayscale draw_on_image crop_image
     ScanImage ScanImageContinuous).

(** Split the body of the loop on every test it makes. *)
Ltac split_frame_step :=
  unfold continuous.process_frame;
  match goal with
  | |- context [continuous.scan ?a ?b ?v ?g] =>
      let plate := fresh "plate" in
      let contains := fresh "contains" in
      destruct (continuous.scan a b v g) as [plate contains] eqn:Scan;
      simpl;
      destruct (scan_ok plate) eqn:Aligned; simpl;
      [ match goal with
        | |- context [continuous.matches_last_full ?l ?p] =>
            destruct (continuous.matches_last_full l p) eqn:Duplicate
        end; simpl;
        [ destruct contains; simpl
        | destruct (is_full_valid plate) eqn:Full; simpl;
          destruct contains; simpl;
          try match goal with
              | |- context [continuous.beep_frequency ?n ?m] =>
                  let frequency := fresh "frequency" in
                  destruct (continuous.beep_frequency n m) as [frequency|]
                    eqn:Frequency;
                  simpl;
                  [ destruct (winsound.Beep_sounds frequency) eqn:Sounds | ]
              end; simpl ]
      | ]
  end.

Lemma continuous_out_emitted (pre : list continuous.Event)
  (r : continuous.Run (Image := Image) (Plate := Plate)) :
  runs.continuous_out (continuous.emitted pre r)
  = pre ++ runs.continuous_out r.
Proof. destruct r; reflexivity. Qed.

Lemma continuous_vars_emitted (pre : list continuous.Event)
  (r : continuous.Run (Image := Image) (Plate := Plate)) :
  runs.continuous_vars (continuous.emitted pre r) = runs.continuous_vars r.
Proof. destruct r; reflexivity. Qed.

Lemma frame_step_keeps_invariant (v v' : continuous.Vars) (frame : Image)
  (out : list continuous.Event) :
  runs.remembers_aligned v ->
  frame_step v frame = continuous.Done v' out ->
  runs.remembers_aligned v'.
Proof.
  intros (Hlast & Hfull & Hnone).
  split_frame_step; intros Hdone;
    try discriminate Hdone; injection Hdone as <- <-;
    unfold runs.remembers_aligned; simpl;
    (split; [|split]);
    match goal with
    | |- forall p, Some _ = Some p -> _ =>
        intros p Hp; injection Hp as <-; try split; assumption
    | |- forall p, continuous.last_plate _ = Some p -> _ => exact Hlast
    | |- forall p, continuous.last_full_plate _ = Some p -> _ => exact Hfull
    | |- Some _ = None -> _ => discriminate
    | |- continuous.last_plate _ = None -> _ =>
        intros Hp; unfold continuous.scan in Scan; rewrite Hp in Scan;
        injection Scan as _ Hc; rewrite <- Hc; exact (Hnone Hp)
    end.
Qed.

(** Between frames the scan worker remembers, as its last plate, an aligned
    plate only, and, as its last full plate, a plate that is aligned and
    fully valid; until a first plate aligns it remembers nothing. *)
Theorem scan_worker_remembers_aligned_plates :
  forall (queue : list (option Image)) (v : continuous.Vars),
    runs.continuous_vars
      (continuous.scanner_worker to_grayscale draw_on_image crop_image
         ScanImage ScanImageContinuous queue) = Some v ->
    runs.remembers_aligned v.
Proof.
  unfold continuous.scanner_worker. intros queue.
  assert (runs.remembers_aligned (continuous.start (Plate := Plate))) as Hstart.
  { unfold runs.remembers_aligned, continuous.start; simpl.
    repeat split; discriminate. }
  revert Hstart. generalize (continuous.start (Plate := Plate)) as v0.
  induction queue as [|item rest IH]; intros v0 Hinv v; simpl.
  - intros [= <-]. exact Hinv.
  - destruct item as [frame|]; simpl; [|intros [= <-]; exact Hinv].
    destruct (frame_step v0 frame) as [v1 out1|out1] eqn:Step; simpl;
      [|discriminate].
    rewrite continuous_vars_emitted. apply IH.
    apply (frame_step_keeps_invariant _ Hinv Step).
Qed.

Lemma frame_step_results (v : continuous.Vars) (frame : Image)
  (p : Plate) (img : Image) :
  In (continuous.result_put p img)
     (match frame_step v frame with
      | continuous.Done _ out => out
      | continuous.Failed out => out
      end) ->
  scan_ok p = true /\ is_full_valid p = true /\
  img = crop_image p (draw_on_image p frame).
Proof.
  split_frame_step; intros Hin; simpl in Hin;
    repeat (destruct Hin as [Hin|Hin]; try discriminate);
    try contradiction;
    injection Hin as <- <-; auto.
Qed.

(** Every plate the scan worker puts on the result queue is aligned and
    fully valid, and goes with the image of a frame of the queue, drawn on and
    cropped. *)
Theorem results_are_full_valid_plates :
  forall (queue : list (option Image)) (v : continuous.Vars)
         (p : Plate) (img : Image),
    In (continuous.result_put p img)
       (runs.continuous_out (frames_loop queue v)) ->
    scan_ok p = true /\ is_full_valid p = true /\
    exists frame,
      In (Some frame) queue /\ img = crop_image p (draw_on_image p frame).
Proof.
  induction queue as [|item rest IH]; intros v p img; simpl; [intros []|].
  destruct item as [frame|]; simpl; [|intros []].
  pose proof (frame_step_results v frame p img) as Hstep.
  destruct (frame_step v frame) as [v1 out1|out1]; simpl.
  - rewrite continuous_out_emitted. intros Hin.
    apply in_app_or in Hin. destruct Hin as [Hin|Hin].
    + destruct (Hstep Hin) as (Ha & Hf & Hi).
      split; [exact Ha|]. split; [exact Hf|]. exists frame. auto.
    + destruct (IH v1 p img Hin) as (Ha & Hf & frame' & Hq & Hi).
      split; [exact Ha|]. split; [exact Hf|]. exists frame'. auto.
  - intros Hin. destruct (Hstep Hin) as (Ha & Hf & Hi).
    split; [exact Ha|]. split; [exact Hf|]. exists frame. auto.
Qed.

Lemma frame_step_one_result (v : continuous.Vars) (frame : Image) :
  (List.length
     (List.filter continuous.is_result_put
        (match frame_step v frame with
         | continuous.Done _ out => out
         | continuous.Failed out => out
         end)) <= 1)%nat.
Proof.
  split_frame_step; auto.
Qed.

(** The scan worker puts at most one result per frame it takes. *)
Theorem results_number_at_most_frames :
  forall (queue : list (option Image)) (v : continuous.Vars),
    (List.length
       (List.filter continuous.is_result_put
          (runs.continuous_out (frames_loop queue v)))
     <= List.length queue)%nat.
Proof.
  induction queue as [|item rest IH]; intros v; simpl; [lia|].
  destruct item as [frame|]; simpl; [|lia].
  pose proof (frame_step_one_result v frame) as Hone.
  destruct (frame_step v frame) as [v1 out1|out1]; simpl.
  - rewrite continuous_out_emitted, filter_app, length_app.
    specialize (IH v1). lia.
  - lia.
Qed.

(** While no plate has aligned yet, a frame sounds no beep and puts no
    overlay: the frame on which the first plate aligns can only put a
    result, and leaves [frame_contains_barcodes] clear. *)
Theorem first_plate_is_silent :
  forall (v : continuous.Vars) (frame : Image),
    continuous.last_plate v = None ->
    continuous.frame_contains_barcodes v = false ->
    exists v' out,
      frame_step v frame = continuous.Done v' out /\
      continuous.frame_contains_barcodes v' = false /\
      (out = [] \/
       exists p, out = [continuous.result_put p
                          (crop_image p (draw_on_image p frame))]).
Proof.
  intros v frame Hnone Hquiet.
  unfold continuous.process_frame, continuous.scan.
  rewrite Hnone, Hquiet. simpl.
  destruct (scan_ok (ScanImage (to_grayscale frame))); simpl.
  - destruct (continuous.matches_last_full _ _); simpl.
    + eexists. eexists. repeat split. left. reflexivity.
    + destruct (is_full_valid (ScanImage (to_grayscale frame))); simpl;
        eexists; eexists; repeat split; [right; eexists|left]; reflexivity.
  - eexists. eexists. repeat split. left. reflexivity.
Qed.

End ContinuousScanProperties.

Section ContinuousRunProperties.
Context {Image Plate : Type} {plate_api : PlateApi Plate}.
Variable to_grayscale : Image -> Image.
Variable draw_on_image : Plate -> Image -> Image.
Variable crop_image : Plate -> Image -> Image.
Variable ScanImage : Image -> Plate.
Variable ScanImageContinuous : Image -> Plate -> Plate * bool.

Abbreviation scan_in :=
  (continuous.scan ScanImage ScanImageContinuous).
Abbreviation step_in :=
  (continuous.process_frame to_grayscale draw_on_image crop_image
     ScanImage ScanImageContinuous).
Abbreviation loop_in :=
  (continuous.scanner_loop to_grayscale draw_on_image crop_image
     ScanImage ScanImageContinuous).

Lemma emitted_emitted (a b : list continuous.Event)
  (r : continuous.Run (Image := Image) (Plate := Plate)) :
  continuous.emitted a (continuous.emitted b r) = continuous.emitted (a ++ b) r.
Proof. destruct r; simpl; rewrite app_assoc; reflexivity. Qed.

(** The scan worker takes the frames ahead of the sentinel as it would with
    nothing behind them, then leaves its loop with what follows the sentinel
    unread; without a sentinel it never leaves the loop. *)
Theorem continuous_scan_worker_stops_at_sentinel :
  forall (frames : list Image) (unread : list (option Image))
         (v : continuous.Vars),
    match loop_in (List.map Some frames) v with
    | continuous.Waiting v' out =>
        loop_in (List.map Some frames ++ None :: unread) v
        = continuous.Exited v' out unread
    | continuous.Crashed out =>
        loop_in (List.map Some frames ++ None :: unread) v
        = continuous.Crashed out
    | continuous.Exited _ _ _ => False
    end.
Proof.
  induction frames as [|frame rest IH]; intros unread v; simpl;
    [reflexivity|].
  destruct (step_in v frame) as [v1 out1|out1]; [|reflexivity].
  specialize (IH unread v1).
  destruct (loop_in (List.map Some rest) v1) as [v2 out2 u2|v2 out2|out2];
    simpl; [contradiction| |]; rewrite IH; reflexivity.
Qed.

Lemma step_ignores_stale_flag (v : continuous.Vars) (p : Plate) (c : bool)
  (frame : Image) :
  continuous.last_plate v = Some p ->
  step_in (continuous.mkVars (continuous.last_plate v)
             (continuous.last_full_plate v) c) frame
  = step_in v frame.
Proof.
  intros Hlast. unfold continuous.process_frame, continuous.scan. simpl.
  rewrite Hlast. reflexivity.
Qed.

(** Once a plate is remembered, a frame whose alignment fails is as if it
    had never been taken: what the worker sends out for the frames behind it,
    and the plates it remembers at the end, are the same with and without
    it. *)
Theorem failed_frame_leaves_no_trace :
  forall (bad : Image) (rest : list (option Image)) (v : continuous.Vars)
         (p : Plate),
    continuous.last_plate v = Some p ->
    scan_ok (fst (scan_in v (to_grayscale bad))) = false ->
    runs.continuous_out (loop_in (Some bad :: rest) v)
    = runs.continuous_out (loop_in rest v) /\
    option_map continuous.last_plate
      (runs.continuous_vars (loop_in (Some bad :: rest) v))
    = option_map continuous.last_plate
        (runs.continuous_vars (loop_in rest v)) /\
    option_map continuous.last_full_plate
      (runs.continuous_vars (loop_in (Some bad :: rest) v))
    = option_map continuous.last_full_plate
        (runs.continuous_vars (loop_in rest v)).
Proof.
  intros bad rest v p Hlast Hbad.
  assert (exists contains,
            step_in v bad
            = continuous.Done
                (continuous.mkVars (continuous.last_plate v)
                   (continuous.last_full_plate v) contains) []) as [contains Hstep].
  { unfold continuous.process_frame.
    destruct (scan_in v (to_grayscale bad)) as [plate contains].
    simpl in Hbad. rewrite Hbad. exists contains. reflexivity. }
  simpl. rewrite Hstep.
  destruct rest as [|[frame|] rest]; simpl.
  - repeat split.
  - rewrite (step_ignores_stale_flag v contains frame Hlast).
    destruct (step_in v frame) as [v1 out1|out1]; simpl; [|repeat split].
    rewrite emitted_emitted. simpl. repeat split.
  - repeat split.
Qed.

Lemma step_fails_in_beep (v : continuous.Vars) (frame : Image)
  (out : list continuous.Event) :
  step_in v frame = continuous.Failed out ->
  let plate := fst (scan_in v (to_grayscale frame)) in
  scan_ok plate = true /\
  snd (scan_in v (to_grayscale frame)) = true /\
  ((exists e,
      continuous.beep_frequency (num_slots plate) (num_valid_barcodes plate)
      = python.Raised e) \/
   exists f,
     continuous.beep_frequency (num_slots plate) (num_valid_barcodes plate)
     = python.Returned f /\
     winsound.Beep_sounds f = false).
Proof.
  unfold continuous.process_frame.
  destruct (scan_in v (to_grayscale frame)) as [plate contains]. simpl.
  destruct (scan_ok plate); [|discriminate].
  destruct (continuous.matches_last_full _ _); [discriminate|].
  destruct (is_full_valid plate); simpl;
    (destruct contains; [|discriminate]);
    (destruct (continuous.beep_frequency _ _) as [f|e] eqn:F;
     [ destruct (winsound.Beep_sounds f) eqn:Sounds; [discriminate|] | ]);
    intros _; repeat split;
    solve [ right; exists f; split; [reflexivity|exact Sounds]
          | left; exists e; reflexivity ].
Qed.

(** In the body of the scan loop only the beep can fail: on an aligned
    plate, for a frame that holds barcodes, the frequency cannot be computed
    or [winsound.Beep] refuses it.  With scans that return plates with slots
    and a count of valid barcodes from 0 to the number of slots, neither
    happens, and the worker never dies over a frame. *)
Theorem scan_worker_survives_plates_with_sound_counts :
  forall (queue : list (option Image)) (v : continuous.Vars),
    (forall gray,
       (0 < num_slots (ScanImage gray))%Z /\
       (0 <= num_valid_barcodes (ScanImage gray)
        <= num_slots (ScanImage gray))%Z) ->
    (forall gray previous,
       (0 < num_slots (fst (ScanImageContinuous gray previous)))%Z /\
       (0 <= num_valid_barcodes (fst (ScanImageContinuous gray previous))
        <= num_slots (fst (ScanImageContinuous gray previous)))%Z) ->
    forall out, loop_in queue v <> continuous.Crashed out.
Proof.
  intros queue v Hfirst Hnext. revert v.
  induction queue as [|item rest IH]; intros v out; simpl; [discriminate|].
  destruct item as [frame|]; [|discriminate].
  destruct (step_in v frame) as [v1 out1|out1] eqn:Step.
  - specialize (IH v1).
    destruct (loop_in rest v1) as [v2 out2 u2|v2 out2|out2]; simpl;
      try discriminate.
    exfalso. exact (IH out2 eq_refl).
  - exfalso. destruct (step_fails_in_beep _ _ Step) as (_ & _ & Hbeep).
    assert ((0 < num_slots (fst (scan_in v (to_grayscale frame))))%Z /\
            (0 <= num_valid_barcodes (fst (scan_in v (to_grayscale frame)))
             <= num_slots (fst (scan_in v (to_grayscale frame))))%Z)
      as [Hslots Hvalid].
    { unfold continuous.scan.
      destruct (continuous.last_plate v) as [previous|]; simpl;
        [apply Hnext|apply Hfirst]. }
    rewrite (continuous_beep_two_values Hslots Hvalid) in Hbeep.
    destruct Hbeep as [(e & He)|(f & Hf & Hrefused)]; [discriminate He|].
    injection Hf as <-.
    destruct (num_valid_barcodes _ =? 0)%Z; discriminate Hrefused.
Qed.

End ContinuousRunProperties.

(* ================================================================== *)
(** * More on the scan worker of [camera_scanner.py]                   *)
(* ================================================================== *)

Section CameraScanProperties.
Context {Image Plate Scanner : Type} {plate_api : PlateApi Plate}.
Variable image_to_grayscale : Image -> Image.
Variable scan_next_frame :
  Scanner -> Image -> camera_scanner.ScanResult Plate * Scanner.

Abbreviation camera_step :=
  (camera_scanner.process_frame image_to_grayscale scan_next_frame).
Abbreviation camera_run :=
  (camera_scanner.scanner_loop image_to_grayscale scan_next_frame).
Abbreviation result_of w frame :=
  (fst (scan_next_frame (camera_scanner.scanner w)
          (image_to_grayscale frame))).

(** Split the body of the loop on every test it makes. *)
Ltac split_camera_step :=
  unfold camera_scanner.process_frame, camera_scanner._plate_beep;
  match goal with
  | |- context [scan_next_frame ?s ?g] =>
      let r := fresh "r" in
      let sc := fresh "sc" in
      destruct (scan_next_frame s g) as [r sc] eqn:Scan; simpl;
      destruct (camera_scanner.console_frame _) eqn:Console; simpl;
      (destruct (camera_scanner.success r) eqn:Success; simpl;
       [ destruct (camera_scanner.any_new_barcodes r) eqn:New; simpl;
         destruct (camera_scanner.already_scanned r) eqn:Dup; simpl;
         [ | destruct (camera_scanner.any_valid_barcodes r) eqn:Valid; simpl;
             [ destruct (camera_scanner.scan_beep _) eqn:BeepOn; simpl;
               [ destruct (camera_scanner.plate r) as [p|] eqn:ThePlate;
                 simpl;
                 [ destruct (camera_scanner.beep_frequency _ _)
                     as [frequency|failure] eqn:Frequency; simpl;
                   [ destruct (winsound.Beep_sounds frequency) eqn:Sounds;
                     simpl | ]
                 | ]
               | ]
             | ]
         | | destruct (camera_scanner.any_valid_barcodes r) eqn:Valid; simpl;
             [ destruct (camera_scanner.scan_beep _) eqn:BeepOn; simpl;
               [ destruct (camera_scanner.plate r) as [p|] eqn:ThePlate;
                 simpl;
                 [ destruct (camera_scanner.beep_frequency _ _)
                     as [frequency|failure] eqn:Frequency; simpl;
                   [ destruct (winsound.Beep_sounds frequency) eqn:Sounds;
                     simpl | ]
                 | ]
               | ]
             | ] ]
       | match goal with
         | |- context [Qle_bool ?a ?b] => destruct (Qle_bool a b) eqn:Recent
         end; simpl ])
  end.

(** A frame that is processed puts a result exactly when the scan succeeded
    and found new barcodes: then it puts the plate with the frame as it
    came, not the grey image.  The time of the last plate becomes the
    reading of the clock on a successful scan and is kept otherwise, and the
    scanner is the one the scan left. *)
Theorem camera_frame_reports_new_barcodes :
  forall (options : camera_scanner.Options) (w w' : camera_scanner.Vars)
         (now : Q) (frame : Image) (out : list camera_scanner.Event),
    camera_step options w now frame = camera_scanner.Done w' out ->
    let r := result_of w frame in
    List.filter camera_scanner.is_result_put out
    = (if camera_scanner.success r && camera_scanner.any_new_barcodes r
       then [camera_scanner.result_put (camera_scanner.plate r) frame]
       else []) /\
    camera_scanner.last_plate_time w'
    = (if camera_scanner.success r then now
       else camera_scanner.last_plate_time w) /\
    camera_scanner.scanner w'
    = snd (scan_next_frame (camera_scanner.scanner w)
             (image_to_grayscale frame)).
Proof.
  intros options w w' now frame out. cbv zeta.
  split_camera_step; intros Hdone; try discriminate Hdone;
    injection Hdone as <- <-; simpl; repeat split.
Qed.

(** The body of the scan loop fails only in the beep: the scan succeeded on
    a plate not yet scanned, with valid barcodes, the beep is on, and the
    plate is missing, or its frequency cannot be computed, or
    [winsound.Beep] refuses the frequency.  The plate overlay was put by
    then; the result, if any was due, is not. *)
Theorem camera_frame_fails_only_in_beep :
  forall (options : camera_scanner.Options) (w : camera_scanner.Vars)
         (now : Q) (frame : Image) (out : list camera_scanner.Event),
    camera_step options w now frame = camera_scanner.Failed out ->
    let r := result_of w frame in
    camera_scanner.scan_beep options = true /\
    camera_scanner.success r = true /\
    camera_scanner.already_scanned r = false /\
    camera_scanner.any_valid_barcodes r = true /\
    (camera_scanner.plate r = None \/
     exists p,
       camera_scanner.plate r = Some p /\
       ((exists e,
           camera_scanner.beep_frequency (num_slots p) (num_valid_barcodes p)
           = python.Raised e) \/
        exists f,
          camera_scanner.beep_frequency (num_slots p) (num_valid_barcodes p)
          = python.Returned f /\
          winsound.Beep_sounds f = false)) /\
    List.filter camera_scanner.is_result_put out = [] /\
    List.filter camera_scanner.is_overlay_put out
    = [camera_scanner.overlay_put
         (camera_scanner.PlateOverlay (camera_scanner.plate r) options)].
Proof.
  intros options w now frame out. cbv zeta.
  split_camera_step; intros Hfail; try discriminate Hfail;
    injection Hfail as <-; simpl; rewrite ?ThePlate; repeat split;
    solve [ left; reflexivity
          | right; eexists; split; [reflexivity|];
            solve [ left; eexists; exact Frequency
                  | right; eexists; split; [exact Frequency|exact Sounds] ] ].
Qed.

(** A frame whose scan fails puts the error overlay exactly when more than
    [NO_PUCK_TIME], two seconds, have passed since the last plate: at two
    seconds sharp it puts none. *)
Theorem error_overlay_after_grace_period :
  forall (options : camera_scanner.Options) (w : camera_scanner.Vars)
         (now : Q) (frame : Image),
    let r := result_of w frame in
    camera_scanner.success r = false ->
    exists w' out,
      camera_step options w now frame = camera_scanner.Done w' out /\
      ((2 < now - camera_scanner.last_plate_time w)%Q ->
       List.filter camera_scanner.is_overlay_put out
       = [camera_scanner.overlay_put
            (camera_scanner.TextOverlay (camera_scanner.error r)
               camera_scanner.Red)]) /\
      ((now - camera_scanner.last_plate_time w <= 2)%Q ->
       List.filter camera_scanner.is_overlay_put out = []).
Proof.
  intros options w now frame. cbv zeta.
  split_camera_step; intros Hfailed; try discriminate Hfailed;
    eexists; eexists; (split; [reflexivity|]); simpl; split; intros Hwhen;
    try reflexivity; exfalso.
  all: try (apply Qle_bool_iff in Recent;
            unfold camera_scanner.NO_PUCK_TIME in Recent; lra).
  all: assert (Qle_bool (now - camera_scanner.last_plate_time w)
                 camera_scanner.NO_PUCK_TIME = true) as Hle
         by (apply Qle_bool_iff; exact Hwhen);
       congruence.
Qed.

Lemma camera_emitted_crashed (pre : list camera_scanner.Event)
  (r : camera_scanner.Run (Image := Image) (Plate := Plate)
         (Scanner := Scanner)) :
  runs.camera_crashed (camera_scanner.emitted pre r) = runs.camera_crashed r.
Proof. destruct r; reflexivity. Qed.

Lemma camera_out_emitted (pre : list camera_scanner.Event)
  (r : camera_scanner.Run (Image := Image) (Plate := Plate)
         (Scanner := Scanner)) :
  runs.camera_out (camera_scanner.emitted pre r) = pre ++ runs.camera_out r.
Proof. destruct r; reflexivity. Qed.

Lemma quiet_step (options : camera_scanner.Options) (w : camera_scanner.Vars)
  (now : Q) (frame : Image) :
  camera_scanner.scan_beep options = false ->
  exists w' out,
    camera_step options w now frame = camera_scanner.Done w' out /\
    List.filter runs.is_beep out = [].
Proof.
  intros Hoff.
  unfold camera_scanner.process_frame, camera_scanner._plate_beep.
  rewrite Hoff. simpl.
  destruct (scan_next_frame _ _) as [r sc].
  destruct (camera_scanner.console_frame options);
    destruct (camera_scanner.success r); simpl;
    destruct (camera_scanner.any_new_barcodes r);
    destruct (camera_scanner.already_scanned r);
    destruct (camera_scanner.any_valid_barcodes r);
    try destruct (Qle_bool _ _);
    simpl; eexists; eexists; split; reflexivity.
Qed.

(** With the beep switched off in the options the scan worker sounds no
    beep and never dies over a frame. *)
Theorem no_beep_no_crash :
  forall (options : camera_scanner.Options) (clock : nat -> Q)
         (queue : list (option Image)) (k : nat) (w : camera_scanner.Vars),
    camera_scanner.scan_beep options = false ->
    runs.camera_crashed (camera_run options clock queue k w) = false /\
    List.filter runs.is_beep
      (runs.camera_out (camera_run options clock queue k w)) = [].
Proof.
  intros options clock queue k w Hoff. revert k w.
  induction queue as [|item rest IH]; intros k w; simpl; [auto|].
  destruct item as [frame|]; simpl; [|auto].
  destruct (@quiet_step options w (clock k) frame Hoff)
    as (w1 & out1 & -> & Hquiet).
  rewrite camera_emitted_crashed, camera_out_emitted, filter_app, Hquiet.
  apply IH.
Qed.

(** The scan worker takes the frames ahead of the sentinel as it would with
    nothing behind them, then leaves its loop with what follows the sentinel
    unread; without a sentinel it never leaves the loop. *)
Theorem camera_scan_worker_stops_at_sentinel :
  forall (options : camera_scanner.Options) (clock : nat -> Q)
         (frames : list Image) (unread : list (option Image)) (k : nat)
         (w : camera_scanner.Vars),
    match camera_run options clock (List.map Some frames) k w with
    | camera_scanner.Waiting w' out =>
        camera_run options clock (List.map Some frames ++ None :: unread) k w
        = camera_scanner.Exited w' out unread
    | camera_scanner.Crashed out =>
        camera_run options clock (List.map Some frames ++ None :: unread) k w
        = camera_scanner.Crashed out
    | camera_scanner.Exited _ _ _ => False
    end.
Proof.
  intros options clock frames unread.
  induction frames as [|frame rest IH]; intros k w; simpl; [reflexivity|].
  destruct (camera_step options w (clock k) frame) as [w1 out1|out1];
    [|reflexivity].
  specialize (IH (S k) w1).
  destruct (camera_run options clock (List.map Some rest) (S k) w1)
    as [w2 out2 u2|w2 out2|out2];
    simpl; [contradiction| |]; rewrite IH; reflexivity.
Qed.

End CameraScanProperties.

(* ================================================================== *)
(** * A camera that gives no frame                                     *)
(* ================================================================== *)

Section FailedCameraRead.
Context {Image Plate Scanner : Type} {plate_api : PlateApi Plate}.
Variable image_to_grayscale : Image -> Image.
Variable scan_next_frame :
  Scanner -> Image -> camera_scanner.ScanResult Plate * Scanner.

Abbreviation camera_scan :=
  (camera_scanner.scanner_loop image_to_grayscale scan_next_frame).

Lemma camera_scan_exits_on_sentinel_only (options : camera_scanner.Options)
  (clock : nat -> Q) (queue : list (option Image)) :
  ~ In None queue ->
  forall k w w' out unread,
    camera_scan options clock queue k w
    <> camera_scanner.Exited w' out unread.
Proof.
  induction queue as [|item rest IH]; intros Hno k w w' out unread; simpl;
    [discriminate|].
  destruct item as [frame|]; [|exfalso; apply Hno; left; reflexivity].
  destruct (camera_scanner.process_frame _ _ _ _ _ _) as [w1 out1|out1];
    [|discriminate].
  assert (~ In None rest) as Hrest by (intros H; apply Hno; right; exact H).
  specialize (IH Hrest (S k) w1).
  destruct (camera_scan options clock rest (S k) w1)
    as [w2 out2 u2|w2 out2|out2]; simpl; try discriminate.
  exfalso. exact (IH w2 out2 u2 eq_refl).
Qed.

Lemma frame_puts_hold_no_sentinel (log : list (TaskPut Image)) :
  forallb is_frame_put log = true -> ~ In None (List.map payload log).
Proof.
  induction log as [|[t img|] rest IH]; simpl; intros Hall; [tauto| |discriminate].
  intros [Hin|Hin]; [discriminate|exact (IH Hall Hin)].
Qed.

Lemma camera_raised_puts_frames_only (ticks : list (Tick Image)) :
  forall t log,
    camera_scanner.capture_loop ticks t = Raised log ->
    (exists tk, In tk ticks /\ frame tk = None) /\
    forallb is_frame_put log = true.
Proof.
  induction ticks as [|tk rest IH]; intros t log; simpl; [discriminate|].
  destruct (kill_queue_empty tk); [|discriminate].
  unfold camera_scanner.capture_pass.
  destruct (frame tk) as [img|] eqn:Frame; simpl.
  - destruct ((qsize tk <? camera_scanner.Q_LIMIT)%Z
              && Qle_bool camera_scanner.INTERVAL (now_test tk - t))%bool;
      destruct (exit_key_pressed tk); simpl; try discriminate.
    + destruct (camera_scanner.capture_loop rest (now_after tk))
        as [l|l|l t'] eqn:Rest; simpl; try discriminate.
      intros [= <-]. destruct (IH _ _ Rest) as [(tk' & Hin & Hnone) Hall].
      split; [exists tk'; auto|exact Hall].
    + destruct (camera_scanner.capture_loop rest t)
        as [l|l|l t'] eqn:Rest; simpl; try discriminate.
      intros [= <-]. destruct (IH _ _ Rest) as [(tk' & Hin & Hnone) Hall].
      split; [exists tk'; auto|exact Hall].
  - intros [= <-]. split; [exists tk; auto|reflexivity].
Qed.

(** The capture worker of [camera_scanner.py] dies only in a pass in which
    the camera gives no frame; it has then put frames only and no
    sentinel, so the scan worker that takes what it put never leaves its
    loop. *)
Theorem failed_camera_read_strands_scan_worker :
  forall (start : Q) (ticks : list (Tick Image)) (log : list (TaskPut Image))
         (options : camera_scanner.Options) (clock : nat -> Q) (k : nat)
         (w : camera_scanner.Vars),
    camera_scanner._capture_worker start ticks = Raised log ->
    (exists tk, In tk ticks /\ frame tk = None) /\
    ~ In None (List.map payload log) /\
    forall w' out unread,
      camera_scan options clock (List.map payload log) k w
      <> camera_scanner.Exited w' out unread.
Proof.
  intros start ticks log options clock k w Hraised.
  destruct (camera_raised_puts_frames_only _ _ Hraised) as [Hnone Hall].
  pose proof (frame_puts_hold_no_sentinel _ Hall) as Hno.
  split; [exact Hnone|]. split; [exact Hno|].
  apply camera_scan_exits_on_sentinel_only. exact Hno.
Qed.

End FailedCameraRead.

(* ================================================================== *)
(** * What the capture worker of [continuous.py] draws                 *)
(* ================================================================== *)

Section DisplayProperties.
Import continuous_display.
Context {Plate : Type}.

(** An overlay that has lived for its lifetime or longer draws nothing but
    the exit message; one that has not draws the plate, if it has one, then
    a text, if it has one, then the exit message.  The text drawn is always
    the scanned tag, whatever text the overlay was made with. *)
Theorem overlay_draws_tag_until_expired :
  forall (plate : option Plate) (text : option string) (lifetime : Z)
         (made now : Q),
    let self := mkShown (continuous.mkOverlay plate text lifetime) made in
    let message := draw_text exit_msg (at_point 20 50) BLACK false 1 2 in
    ((inject_Z lifetime <= now - made)%Q ->
     draw_on_image self now = [message]) /\
    ((now - made < inject_Z lifetime)%Q ->
     draw_on_image self now
     = (match plate with
        | Some p => [draw_plate p BLUE; draw_pins p]
        | None => []
        end)
       ++ (if slot.is_not_None text
           then [draw_text continuous.SCANNED_TAG center GREEN true 4 3]
           else [])
       ++ [message]).
Proof.
  intros plate text lifetime made now. cbv zeta.
  unfold draw_on_image. simpl.
  destruct (Qle_bool (inject_Z lifetime) (now - made)) eqn:Expired; simpl.
  - split; [reflexivity|].
    intros Hlive. apply Qle_bool_iff in Expired. lra.
  - split.
    + intros Hover. apply Qle_bool_iff in Hover. congruence.
    + intros _. destruct plate, text; reflexivity.
Qed.

Lemma drain_app (queue : list (Shown Plate)) (newest latest : Shown Plate) :
  drain (queue ++ [newest]) latest = newest.
Proof.
  revert latest. induction queue as [|o rest IH]; intros latest; simpl;
    [reflexivity|apply IH].
Qed.

(** Draining the overlay queue keeps the overlay put last and drops the
    ones put before it, so that only the newest is drawn; on an empty queue
    the overlay kept from earlier passes stays. *)
Theorem drain_keeps_newest_overlay :
  forall (queue : list (Shown Plate)) (newest latest : Shown Plate) (now : Q),
    drain [] latest = latest /\
    drain (queue ++ [newest]) latest = newest /\
    draw_on_image (drain (queue ++ [newest]) latest) now
    = draw_on_image newest now.
Proof.
  intros queue newest latest now.
  split; [reflexivity|]. split; [apply drain_app|].
  rewrite drain_app. reflexivity.
Qed.

End DisplayProperties.

(* ================================================================== *)
(** * The further properties on the sample values                      *)
(* ================================================================== *)

(** The slot found empty at the end of the sample visit stores no
    barcode. *)
Lemma empty_flag_excludes_stored_barcode_witness :
  slot._empty (slot_calls.perform_all examples.visit (slot.__init__ 3)) = true
  /\ slot._barcode (slot_calls.perform_all examples.visit (slot.__init__ 3))
     = None.
Proof.
  split; [reflexivity|].
  apply (empty_flag_excludes_stored_barcode examples.visit 3). reflexivity.
Defined.

(** In the sample visit the barcode is set after the [new_frame]: the flag
    is set at the end, though the slot is empty by then. *)
Lemma flag_tells_barcode_set_since_new_frame_witness :
  slot.returns slot.barcode_this_frame
    (slot_calls.perform_all examples.visit (slot.__init__ 3)) = true.
Proof.
  apply (proj1 (flag_tells_barcode_set_since_new_frame
                  [slot_calls.call_new_frame]
                  [slot_calls.call_set_bounds (Some ((10, 20), 40)%Z);
                   slot_calls.call_set_empty]
                  (slot_calls.call_set_barcode (Some samples.tube))
                  (slot.__init__ 3))); reflexivity.
Defined.

(** The sample slot that was read contains a barcode and gives its data. *)
Lemma contains_barcode_means_stored_witness :
  exists b,
    slot._barcode samples.read_slot = Some b /\
    slot._empty samples.read_slot = false /\
    slot.returns slot.barcode_data samples.read_slot = data b.
Proof.
  apply (proj2 (proj2 (contains_barcode_means_stored samples.read_slot))).
  reflexivity.
Defined.

(** A puck of sixteen slots with five valid barcodes: 37 Hz in
    [continuous.py], and a frequency within a hertz of 6912 Hz in
    [camera_scanner.py]. *)
Lemma beep_frequency_range_witness :
  (exists f,
     continuous.beep_frequency 16 5 = python.Returned f /\
     f = 37%Z /\
     winsound.Beep_sounds f = true) /\
  exists f,
    camera_scanner.beep_frequency 16 5 = python.Returned f /\
    (37 <= f <= 10037)%Z /\
    (6911 <= f <= 6912)%Z /\
    winsound.Beep_sounds f = true.
Proof.
  destruct (@beep_frequency_range 16 5 ltac:(lia) ltac:(lia))
    as [Hcontinuous Hcamera].
  split; [exact Hcontinuous|]. apply Hcamera. lia.
Defined.

(** A plate with no slots has no beep frequency. *)
Lemma beep_fails_only_without_slots_witness :
  continuous.beep_frequency 0 0 = python.Raised python.ZeroDivisionError /\
  camera_scanner.beep_frequency 0 0 = python.Raised python.ZeroDivisionError.
Proof.
  split.
  - apply (proj1 (beep_fails_only_without_slots 0 0)). reflexivity.
  - apply (proj2 (beep_fails_only_without_slots 0 0)). reflexivity.
Defined.

(** The sample passes end with the exit key. *)
Lemma continuous_capture_stops_on_exit_key_witness :
  (exists tk, In tk samples.ticks /\ exit_key_pressed tk = true) /\
  exists frames_put,
    [PutFrame (120 # 1000) 120%nat; PutFrame (240 # 1000) 240%nat;
     PutSentinel]
    = frames_put ++ [PutSentinel] /\
    forallb is_frame_put frames_put = true.
Proof.
  apply (@continuous_capture_stops_on_exit_key nat 0 samples.ticks).
  reflexivity.
Defined.

(** The sample passes, with a first pass that finds the kill queue
    non-empty. *)
Lemma camera_capture_stops_on_kill_or_exit_key_witness :
  exists tk,
    In tk (samples.killed_tick :: samples.ticks) /\
    (kill_queue_empty tk = false \/ exit_key_pressed tk = true).
Proof.
  apply (@camera_capture_stops_on_kill_or_exit_key nat 0
           (samples.killed_tick :: samples.ticks) [PutSentinel]).
  reflexivity.
Defined.

(** Three passes that find the task queue busy put no frame. *)
Lemma capture_puts_no_frame_on_busy_queue_witness :
  frame_times (puts (continuous.capture_worker 0 examples.busy_ticks)) = [] /\
  frame_times (puts (camera_scanner._capture_worker 0 examples.busy_ticks))
  = [].
Proof.
  apply (proj2 (proj2 (@capture_puts_no_frame_on_busy_queue nat 0
                         examples.busy_ticks))).
  repeat constructor; simpl; lia.
Defined.

(** The sample session: after frames 1 and 2 and the sentinel the worker
    remembers aligned plates. *)
Lemma scan_worker_remembers_aligned_plates_witness :
  runs.remembers_aligned (plate_api := samples.plate_api)
    examples.session_vars.
Proof.
  apply (scan_worker_remembers_aligned_plates (plate_api := samples.plate_api)
           samples.plain samples.untouched samples.untouched
           (merge_engine.ScanImage 3 samples.align samples.decode)
           (merge_engine.ScanImageContinuous 3 samples.align samples.decode)
           [Some 1%nat; Some 2%nat; None]).
  vm_compute. reflexivity.
Defined.

(** The sample session puts the plate of frame 2, which is full. *)
Lemma results_are_full_valid_plates_witness :
  scan_ok (PlateApi := samples.plate_api) examples.plate_after_frame_2 = true
  /\ is_full_valid (PlateApi := samples.plate_api)
       examples.plate_after_frame_2 = true.
Proof.
  destruct (results_are_full_valid_plates (plate_api := samples.plate_api)
              samples.plain samples.untouched samples.untouched
              (merge_engine.ScanImage 3 samples.align samples.decode)
              (merge_engine.ScanImageContinuous 3 samples.align samples.decode)
              [Some 1%nat; Some 2%nat; None] continuous.start
              examples.plate_after_frame_2 2%nat)
    as (Haligned & Hfull & _).
  - vm_compute. left. reflexivity.
  - split; assumption.
Defined.

(** The first frame of the sample session puts nothing. *)
Lemma first_plate_is_silent_witness :
  exists v' out,
    samples.process_frame continuous.start 1%nat = continuous.Done v' out /\
    continuous.frame_contains_barcodes v' = false /\
    (out = [] \/
     exists p, out = [continuous.result_put p
                        (samples.untouched p (samples.untouched p 1%nat))]).
Proof.
  apply (first_plate_is_silent (plate_api := samples.plate_api)
           samples.plain samples.untouched samples.untouched
           (merge_engine.ScanImage 3 samples.align samples.decode)
           (merge_engine.ScanImageContinuous 3 samples.align samples.decode)
           continuous.start 1%nat); reflexivity.
Defined.

(** Frame 0, which shows no plate, between frame 1 and frame 2 of the sample
    session. *)
Lemma failed_frame_leaves_no_trace_witness :
  runs.continuous_out
    (examples.scanner_loop [Some 0%nat; Some 2%nat; None]
       samples.after_frame_1)
  = runs.continuous_out
      (examples.scanner_loop [Some 2%nat; None] samples.after_frame_1).
Proof.
  destruct (continuous.last_plate samples.after_frame_1) as [p|] eqn:Last;
    [|discriminate Last].
  apply (failed_frame_leaves_no_trace (plate_api := samples.plate_api)
           samples.plain samples.untouched samples.untouched
           (merge_engine.ScanImage 3 samples.align samples.decode)
           (merge_engine.ScanImageContinuous 3 samples.align samples.decode)
           0%nat [Some 2%nat; None] samples.after_frame_1 Last).
  reflexivity.
Defined.

(** Scans that always return the full sample plate, of three slots, all
    valid. *)
Lemma scan_worker_survives_plates_with_sound_counts_witness :
  (num_slots (PlateApi := samples.plate_api) samples.full_plate = 3%Z /\
   num_valid_barcodes (PlateApi := samples.plate_api) samples.full_plate
   = 3%Z) /\
  forall out,
    continuous.scanner_loop (plate_api := samples.plate_api)
      samples.plain samples.untouched samples.untouched
      examples.fixed_ScanImage examples.fixed_ScanImageContinuous
      [Some 1%nat; Some 2%nat; None] continuous.start
    <> continuous.Crashed out.
Proof.
  split; [split; reflexivity|].
  apply (scan_worker_survives_plates_with_sound_counts
           (plate_api := samples.plate_api)
           samples.plain samples.untouched samples.untouched
           examples.fixed_ScanImage examples.fixed_ScanImageContinuous
           [Some 1%nat; Some 2%nat; None] continuous.start);
    intros; simpl; lia.
Defined.

(** Frame 2, which the sample scanner reports with new barcodes. *)
Lemma camera_frame_reports_new_barcodes_witness :
  exists w' out,
    samples.camera_frame samples.options samples.camera_vars 5 2%nat
    = camera_scanner.Done w' out /\
    List.filter camera_scanner.is_result_put out
    = [camera_scanner.result_put (Some samples.full_plate) 2%nat] /\
    camera_scanner.last_plate_time w' = 5.
Proof.
  eexists. eexists. split; [reflexivity|].
  destruct (camera_frame_reports_new_barcodes (plate_api := samples.plate_api)
              samples.plain samples.scan_next_frame
              samples.options samples.camera_vars 5 2%nat eq_refl)
    as (Hresult & Htime & _).
  split; [exact Hresult|exact Htime].
Defined.

(** A scan result with valid barcodes and no plate, with the beep on. *)
Lemma camera_frame_fails_only_in_beep_witness :
  exists out,
    camera_scanner.process_frame (plate_api := samples.plate_api)
      samples.plain examples.plateless_scan
      samples.options samples.camera_vars 5 1%nat
    = camera_scanner.Failed out /\
    List.filter camera_scanner.is_result_put out = [].
Proof.
  eexists. split; [reflexivity|].
  destruct (camera_frame_fails_only_in_beep (plate_api := samples.plate_api)
              samples.plain examples.plateless_scan
              samples.options samples.camera_vars 5 1%nat eq_refl)
    as (_ & _ & _ & _ & _ & Hresult & _).
  exact Hresult.
Defined.

(** Frame 0, which shows no plate, five seconds and two seconds after the
    last plate. *)
Lemma error_overlay_after_grace_period_witness :
  (exists w' out,
     samples.camera_frame samples.options samples.camera_vars 5 0%nat
     = camera_scanner.Done w' out /\
     List.filter camera_scanner.is_overlay_put out
     = [camera_scanner.overlay_put
          (camera_scanner.TextOverlay "No plate" camera_scanner.Red)]) /\
  (exists w' out,
     samples.camera_frame samples.options samples.camera_vars 2 0%nat
     = camera_scanner.Done w' out /\
     List.filter camera_scanner.is_overlay_put out = []).
Proof.
  split.
  - destruct (error_overlay_after_grace_period
                (plate_api := samples.plate_api)
                samples.plain samples.scan_next_frame
                samples.options samples.camera_vars 5 0%nat eq_refl)
      as (w' & out & Hrun & Hlate & _).
    exists w', out. split; [exact Hrun|]. apply Hlate. reflexivity.
  - destruct (error_overlay_after_grace_period
                (plate_api := samples.plate_api)
                samples.plain samples.scan_next_frame
                samples.options samples.camera_vars 2 0%nat eq_refl)
      as (w' & out & Hrun & _ & Hearly).
    exists w', out. split; [exact Hrun|]. apply Hearly.
    unfold Qle; simpl; lia.
Defined.

(** The sample scanner with the beep switched off. *)
Lemma no_beep_no_crash_witness :
  runs.camera_crashed
    (camera_scanner.scanner_loop (plate_api := samples.plate_api)
       samples.plain samples.scan_next_frame examples.quiet_options
       (fun _ => 0) [Some 1%nat; Some 2%nat; None] 0%nat samples.camera_vars)
  = false.
Proof.
  apply (no_beep_no_crash (plate_api := samples.plate_api)
           samples.plain samples.scan_next_frame examples.quiet_options
           (fun _ => 0) [Some 1%nat; Some 2%nat; None] 0%nat
           samples.camera_vars).
  reflexivity.
Defined.

(** A camera that gives no frame in the second pass. *)
Lemma failed_camera_read_strands_scan_worker_witness :
  camera_scanner._capture_worker 0
    [samples.tick 120 false; examples.blind_tick]
  = Raised [PutFrame (120 # 1000) 120%nat] /\
  forall w' out unread,
    samples.camera_loop [Some 120%nat] 0%nat samples.camera_vars
    <> camera_scanner.Exited w' out unread.
Proof.
  split; [reflexivity|].
  apply (failed_camera_read_strands_scan_worker
           (plate_api := samples.plate_api)
           samples.plain samples.scan_next_frame
           0 [samples.tick 120 false; examples.blind_tick]
           samples.options (fun _ => 0) 0%nat samples.camera_vars eq_refl).
Defined.

(** The overlay for a plate already scanned, half a second and two seconds
    after it was made. *)
Lemma overlay_draws_tag_until_expired_witness :
  continuous_display.draw_on_image examples.scanned_overlay (21 # 2)
  = [continuous_display.draw_text "Already Scanned"
       continuous_display.center continuous_display.GREEN true 4 3;
     continuous_display.draw_text "Press 'q' to exit scanning mode"
       (continuous_display.at_point 20 50) continuous_display.BLACK
       false 1 2] /\
  continuous_display.draw_on_image examples.scanned_overlay 12
  = [continuous_display.draw_text "Press 'q' to exit scanning mode"
       (continuous_display.at_point 20 50) continuous_display.BLACK
       false 1 2].
Proof.
  split.
  - apply (proj2 (overlay_draws_tag_until_expired (Plate := samples.Plate)
                    None (Some continuous.SCANNED_TAG) 1 10 (21 # 2))).
    reflexivity.
  - apply (proj1 (overlay_draws_tag_until_expired (Plate := samples.Plate)
                    None (Some continuous.SCANNED_TAG) 1 10 12)).
    unfold Qle; simpl; lia.
Defined.
